(** * vite-plugin-markdown: the per-document transform of [src/index.ts]

    A shallow embedding of the plugin's transform: renderer resolution
    ([markdownCompiler]), the module emitter ([ExportedContent]), the outline
    extraction, and the two framework passes ([markCodeAsPre] for React over a
    domhandler tree, [markCodeAsPre] for Vue over a node-html-parser tree).

    The libraries the plugin calls (front-matter, markdown-it, the two HTML
    parsers and their serializers, JSON.stringify, Babel, the Vue template
    compiler) are not part of the repository; they are Section variables, and
    a call that may throw returns a [result]. *)

From Stdlib Require Import String Ascii List Bool Arith ZArith DecimalString Lia.
Import ListNotations.
Open Scope string_scope.
Set Warnings "-register-all,-notation-for-abbreviation".

(** ** JavaScript values and the string and object operations the plugin uses *)

Module Js.

(** An exception travelling up the call stack, by its message. *)
Definition exn := string.

Inductive result (A : Type) : Type :=
| Ok (a : A)
| Throw (e : exn).
Arguments Ok {A} a.
Arguments Throw {A} e.

Definition bind {A B : Type} (m : result A) (k : A -> result B) : result B :=
  match m with
  | Ok a => k a
  | Throw e => Throw e
  end.

Definition quote : string := String (ascii_of_nat 34) EmptyString.
Definition backtick : string := String (ascii_of_nat 96) EmptyString.
Definition newline : string := String (ascii_of_nat 10) EmptyString.

(** Truthiness of a possibly absent string ([undefined] and the empty string
    are falsy). *)
Definition truthy (v : option string) : bool :=
  match v with
  | Some s => negb (s =? EmptyString)
  | None => false
  end.

(** [Array.prototype.includes] on an array of strings. *)
Definition includes (xs : list string) (x : string) : bool :=
  existsb (String.eqb x) xs.

(** [Array.prototype.join]. *)
Fixpoint join (sep : string) (xs : list string) : string :=
  match xs with
  | [] => EmptyString
  | [x] => x
  | x :: rest => x ++ sep ++ join sep rest
  end.

Fixpoint drop (n : nat) (s : string) : string :=
  match n, s with
  | S k, String _ s' => drop k s'
  | _, _ => s
  end.

(** [s.replace(/pat/g, rep)] for a literal, non-empty [pat] and a [rep]
    without [$]: matches are taken left to right and do not overlap.
    [skip] counts the characters of a match still to be dropped. *)
Fixpoint replaceAll_from (pat rep : string) (skip : nat) (s : string) : string :=
  match s with
  | EmptyString => EmptyString
  | String c s' =>
      match skip with
      | S k => replaceAll_from pat rep k s'
      | O =>
          if prefix pat s
          then rep ++ replaceAll_from pat rep (String.length pat - 1) s'
          else String c (replaceAll_from pat rep 0 s')
      end
  end.

Definition replaceAll (pat rep s : string) : string :=
  replaceAll_from pat rep 0 s.

(** [s.replace(pat, rep)] for a string [pat]: the first match only. *)
Fixpoint replace (pat rep s : string) : string :=
  if prefix pat s then rep ++ drop (String.length pat) s
  else match s with
       | EmptyString => EmptyString
       | String c s' => String c (replace pat rep s')
       end.

(** [s.endsWith(suffix)]. *)
Definition endsWith (suffix s : string) : bool :=
  Nat.leb (String.length suffix) (String.length s) &&
  (drop (String.length s - String.length suffix) s =? suffix).

(** A JavaScript object used as a string-keyed record of strings (the
    attribute objects of both parsers): the properties in insertion order,
    every key once. *)
Definition props := list (string * string).

Fixpoint get (k : string) (o : props) : option string :=
  match o with
  | [] => None
  | (k', v) :: o' => if k' =? k then Some v else get k o'
  end.

(** [o[k] = v]: an existing property keeps its place, a new one goes last. *)
Fixpoint set (k v : string) (o : props) : props :=
  match o with
  | [] => [(k, v)]
  | (k', v') :: o' => if k' =? k then (k, v) :: o' else (k', v') :: set k v o'
  end.

(** [delete o[k]]. *)
Definition delete (k : string) (o : props) : props :=
  filter (fun kv => negb (fst kv =? k)) o.

(** JSON-compatible values; [number] is the number type (a double in
    JavaScript). *)
Inductive value (number : Type) : Type :=
| JNull
| JBool (b : bool)
| JNum (n : number)
| JStr (s : string)
| JArr (xs : list (value number))
| JObj (fields : list (string * value number)).
Arguments JNull {number}.
Arguments JBool {number} b.
Arguments JNum {number} n.
Arguments JStr {number} s.
Arguments JArr {number} xs.
Arguments JObj {number} fields.

End Js.

Import Js.

Notation "x <- m ;; k" := (bind m (fun x => k))
  (at level 61, m at next level, right associativity).

(** ** The tree of htmlparser2 / domhandler ([parseDOM]) *)

Module DomHandler.

(** [Element] is domhandler's class of that name ([tagName], [attribs],
    [childNodes]); the other constructors are the node classes that are not
    an [instanceof Element]. *)
Inductive Node : Type :=
| Element (tagName : string) (attribs : props) (childNodes : list Node)
| Text (data : string)
| Comment (data : string)
| ProcessingInstruction (name data : string)
| CDATA (childNodes : list Node).

Definition childNodes (n : Node) : list Node :=
  match n with
  | Element _ _ c => c
  | CDATA c => c
  | _ => []
  end.

(** [node.attribs]; only an element has them. *)
Definition attribs_of (n : Node) : props :=
  match n with
  | Element _ a _ => a
  | _ => []
  end.

(** The node reached from [n] by the child indices [p]. *)
Fixpoint subnode (p : list nat) (n : Node) : option Node :=
  match p with
  | [] => Some n
  | i :: p' =>
      match nth_error (childNodes n) i with
      | Some c => subnode p' c
      | None => None
      end
  end.

Definition subnode_of_root (p : list nat) (root : list Node) : option Node :=
  match p with
  | [] => None
  | i :: p' =>
      match nth_error root i with
      | Some c => subnode p' c
      | None => None
      end
  end.

End DomHandler.

(** ** The tree of node-html-parser ([parse]) *)

Module NodeHtmlParser.

(** [HTMLElement] with its [tagName], its attributes (what [setAttribute]
    reads and writes) and its [childNodes]; text and comment nodes are the
    classes that are not an [instanceof HTMLElement]. The root element that
    [parse] returns is given by its [childNodes]. *)
Inductive Node : Type :=
| HTMLElement (tagName : string) (attrs : props) (childNodes : list Node)
| TextNode (rawText : string)
| CommentNode (rawText : string).

Definition childNodes (n : Node) : list Node :=
  match n with
  | HTMLElement _ _ c => c
  | _ => []
  end.

(** [HTMLElement.setAttribute]. *)
Definition setAttribute (key val : string) (n : Node) : Node :=
  match n with
  | HTMLElement t a c => HTMLElement t (set key val a) c
  | other => other
  end.

Fixpoint subnode (p : list nat) (n : Node) : option Node :=
  match p with
  | [] => Some n
  | i :: p' =>
      match nth_error (childNodes n) i with
      | Some c => subnode p' c
      | None => None
      end
  end.

Definition subnode_of_root (p : list nat) (root : list Node) : option Node :=
  match p with
  | [] => None
  | i :: p' =>
      match nth_error root i with
      | Some c => subnode p' c
      | None => None
      end
  end.

(** [parse]'s options as the plugin passes them. *)
Record ParseOptions : Type := {
  opt_pre : bool;
  opt_script : bool;
  opt_comment : bool;
  opt_style : bool
}.

End NodeHtmlParser.

(** ** Plugin options and renderer resolution *)

Inductive Mode : Type := TOC | HTML | REACT | VUE.

Definition Mode_eqb (a b : Mode) : bool :=
  match a, b with
  | TOC, TOC | HTML, HTML | REACT, REACT | VUE, VUE => true
  | _, _ => false
  end.

(** [MarkdownIt.Options]: every field is optional. *)
Record MarkdownItOptions : Type := {
  html : option bool;
  xhtmlOut : option bool;
  breaks : option bool;
  langPrefix : option string;
  linkify : option bool;
  typographer : option bool;
  quotes : option string;
  highlight : option (string -> string -> string)
}.

(** An options object that sets [html] and [xhtmlOut] only. *)
Definition html_xhtmlOut (h x : option bool) : MarkdownItOptions :=
  {| html := h; xhtmlOut := x; breaks := None; langPrefix := None;
     linkify := None; typographer := None; quotes := None; highlight := None |}.

(** What a JavaScript condition makes of [undefined | boolean]. *)
Definition is_true (b : option bool) : bool :=
  match b with
  | Some true => true
  | _ => false
  end.

Section Renderer.

(** The class of markdown-it: its instances, its constructor and the
    [render] method. *)
Variable MarkdownIt : Type.
Variable MarkdownIt_new : MarkdownItOptions -> MarkdownIt.
Variable MarkdownIt_render : MarkdownIt -> string -> result string.

(** [MarkdownIt | MarkdownIt.Options], the type of [options.markdownIt]:
    an instance passes the [instanceof] test of line 24, an options object is
    a plain object and passes the [typeof] test of line 26. *)
Inductive MarkdownItArg : Type :=
| Instance (md : MarkdownIt)
| Options (o : MarkdownItOptions).

Record PluginOptions : Type := {
  mode : option (list Mode);
  markdown : option (string -> result string);
  markdownIt : option MarkdownItArg
}.

(** [options.mode?.includes(m)]. *)
Definition mode_includes (options : PluginOptions) (m : Mode) : option bool :=
  match mode options with
  | Some ms => Some (existsb (Mode_eqb m) ms)
  | None => None
  end.

(** [MarkdownIt | { render }], what [markdownCompiler] returns. *)
Inductive Compiler : Type :=
| OfMarkdownIt (md : MarkdownIt)
| OfFunction (render : string -> result string).

Definition render (c : Compiler) (body : string) : result string :=
  match c with
  | OfMarkdownIt md => MarkdownIt_render md body
  | OfFunction f => f body
  end.

(** Lines 22 to 33. ([markdownIt] of any other type, for which line 23
    would fall through to line 32, is not of the declared type.) *)
Definition markdownCompiler (options : PluginOptions) : Compiler :=
  match markdownIt options with
  | Some (Instance md) => OfMarkdownIt md
  | Some (Options o) => OfMarkdownIt (MarkdownIt_new o)
  | None =>
      match markdown options with
      | Some f => OfFunction f
      | None =>
          OfMarkdownIt
            (MarkdownIt_new (html_xhtmlOut (Some true) (mode_includes options REACT)))
      end
  end.

End Renderer.

Arguments Instance {MarkdownIt} md.
Arguments Options {MarkdownIt} o.
Arguments mode {MarkdownIt} p.
Arguments markdown {MarkdownIt} p.
Arguments markdownIt {MarkdownIt} p.
Arguments mode_includes {MarkdownIt} options m.
Arguments OfMarkdownIt {MarkdownIt} md.
Arguments OfFunction {MarkdownIt} render.
Arguments render {MarkdownIt} MarkdownIt_render c body.
Arguments markdownCompiler {MarkdownIt} MarkdownIt_new options.

(** ** The module emitter *)

Section Emitter.

Variable number : Type.
Variable JSON_stringify : value number -> string.

Record ExportedContent : Type := {
  exports : string;
  contextCode : string
}.

(** [new ExportedContent()]. *)
Definition new_ExportedContent : ExportedContent :=
  {| exports := EmptyString; contextCode := EmptyString |}.

(** The text exported for a value: a string as it is, anything else through
    [JSON.stringify]. *)
Definition exportedContent (v : value number) : string :=
  match v with
  | JStr s => s
  | _ => JSON_stringify v
  end.

(** Line 41: the statement appended to [#exports]. *)
Definition exportStatement (key : string) (v : value number) : string :=
  "export const " ++ key ++ " = " ++ exportedContent v ++ newline.

(** Lines 42 to 44: what is appended to [#contextCode]; an absent or empty
    [contextCode] adds nothing. *)
Definition contextStatement (context : option string) : string :=
  match context with
  | Some c => if truthy context then c ++ newline else EmptyString
  | None => EmptyString
  end.

Definition addProperty (key : string) (v : value number) (context : option string)
    (this : ExportedContent) : ExportedContent :=
  {| exports := exports this ++ exportStatement key v;
     contextCode := contextCode this ++ contextStatement context |}.

(** [export()]: [[contextCode, exports].join('\n')]. *)
Definition export (this : ExportedContent) : string :=
  join newline [contextCode this; exports this].

(** A sequence of [addProperty] calls, each given by its three arguments. *)
Definition addProperties (calls : list (string * value number * option string))
    (this : ExportedContent) : ExportedContent :=
  fold_left (fun content call => addProperty (fst (fst call)) (snd (fst call)) (snd call) content)
            calls this.

End Emitter.

Arguments exportedContent {number} JSON_stringify v.
Arguments exportStatement {number} JSON_stringify key v.
Arguments addProperty {number} JSON_stringify key v context this.
Arguments addProperties {number} JSON_stringify calls this.

(** ** The outline *)

Module Outline.
Import NodeHtmlParser.

Record Entry : Type := { level : string; content : string }.

Definition headings : list string := ["h1"; "h2"; "h3"; "h4"; "h5"; "h6"].

Definition isHeading (childNode : Node) : bool :=
  match childNode with
  | HTMLElement t _ _ => includes headings t
  | _ => false
  end.

Section Toc.
(** [Node.toString()] of node-html-parser. *)
Variable toString : Node -> string.

(** [childNodes.toString()]: [Array.prototype.toString] joins the
    elements' strings with a comma. *)
Definition Array_toString (nodes : list Node) : string :=
  join "," (map toString nodes).

(** The object built for one heading; [toc] below applies it to
    elements only. *)
Definition entry (index : Node) : Entry :=
  match index with
  | HTMLElement t _ c =>
      {| level := replace "h" EmptyString t; content := Array_toString c |}
  | _ => {| level := EmptyString; content := EmptyString |}
  end.

(** Lines 67 to 74, on [root.childNodes]. *)
Definition toc (root : list Node) : list Entry :=
  map entry (filter isHeading root).
End Toc.

(** The array of [{ level, content }] objects as a value. *)
Definition toc_value {number : Type} (es : list Entry) : value number :=
  JArr (map (fun e => JObj [("level", JStr (level e)); ("content", JStr (content e))]) es).

End Outline.

(** ** The React pass (lines 79 to 120) *)

Module React.
Import DomHandler.

Definition marker_open : string := quote ++ "vfm{{".
Definition marker_close : string := "}}vfm" ++ quote.

(** The value given to [dangerouslySetInnerHTML]. *)
Definition injection (codeContent : string) : string :=
  "vfm{{ __html: " ++ backtick ++ codeContent ++ backtick ++ "}}vfm".

(** Lines 84 to 87: the [class] attribute of a [pre] or [code] element. *)
Definition renameClass (tagName : string) (attribs : props) : props :=
  if includes ["pre"; "code"] tagName && truthy (get "class" attribs)
  then match get "class" attribs with
       | Some v => delete "class" (set "className" v attribs)
       | None => attribs
       end
  else attribs.

Section Pass.
(** [DomUtils.getInnerHTML] and [DomUtils.getOuterHTML]. *)
Variable getInnerHTML : Node -> string.
Variable getOuterHTML : list Node -> string.

Fixpoint markCodeAsPre (node : Node) : Node :=
  match node with
  | Element tagName attribs childNodes =>
      let attribs1 := renameClass tagName attribs in
      if tagName =? "code"
      then
        let codeContent := getInnerHTML (Element tagName attribs1 childNodes) in
        Element tagName (set "dangerouslySetInnerHTML" (injection codeContent) attribs1) []
      else Element tagName attribs1 (map markCodeAsPre childNodes)
  | other => other
  end.

(** Line 102: serialize, then strip the markers. *)
Definition stripMarkers (s : string) : string :=
  replaceAll marker_close "}}" (replaceAll marker_open "{{" s).

Definition markup (root : list Node) : string :=
  stripMarkers (getOuterHTML (map markCodeAsPre root)).
End Pass.

Definition reactCode (h : string) : string :=
  newline ++ "          const markdown =" ++
  newline ++ "            <div>" ++
  newline ++ "              " ++ h ++
  newline ++ "            </div>" ++
  newline ++ "        ".

Definition compiledReactCode (code : string) : string :=
  newline ++ "          function (props) {" ++
  newline ++ "            Object.keys(props).forEach(function (key) {" ++
  newline ++ "              this[key] = props[key]" ++
  newline ++ "            })" ++
  newline ++ "            " ++ code ++
  newline ++ "            return markdown" ++
  newline ++ "          }" ++
  newline ++ "        ".

Definition importReact : string := "import React from " ++ quote ++ "react" ++ quote.

(** The nodes the pass is called on: [visited p n] is the node at [p] below
    [n] when every node on the way down is an element other than [code]
    (the pass empties a [code] element and enters no other kind of node). *)
Fixpoint visited (p : list nat) (n : Node) : option Node :=
  match p with
  | [] => Some n
  | i :: p' =>
      match n with
      | Element t _ c =>
          if t =? "code" then None
          else match nth_error c i with
               | Some m => visited p' m
               | None => None
               end
      | _ => None
      end
  end.

Definition visited_of_root (p : list nat) (root : list Node) : option Node :=
  match p with
  | [] => None
  | i :: p' =>
      match nth_error root i with
      | Some m => visited p' m
      | None => None
      end
  end.

End React.

(** ** The Vue pass (lines 122 to 146) *)

Module Vue.
Import NodeHtmlParser.

(** Lines 126 to 130, for one child of the root. *)
Definition markTopLevel (childNode : Node) : Node :=
  match childNode with
  | HTMLElement t _ _ =>
      if includes ["pre"; "code"] t then setAttribute "v-pre" "true" childNode
      else childNode
  | other => other
  end.

(** Lines 133 to 140, with [setAttribute] written out on the element's
    attributes. *)
Fixpoint markCodeAsPre (node : Node) : Node :=
  match node with
  | HTMLElement t a c =>
      HTMLElement t (if t =? "code" then set "v-pre" "true" a else a)
                  (map markCodeAsPre c)
  | other => other
  end.

(** The tree handed to the serializer on line 143. *)
Definition adapt (root : list Node) : list Node :=
  map markCodeAsPre (map markTopLevel root).

Definition vueCode (compiledVueCode : string) : string :=
  replace (newline ++ "export function render(") (newline ++ "function vueRender(")
          compiledVueCode.

End Vue.

(** ** The per-document transform (lines 55 to 151) *)

Section Transform.

Variable number : Type.
Variable MarkdownIt : Type.
Variable MarkdownIt_new : MarkdownItOptions -> MarkdownIt.
Variable MarkdownIt_render : MarkdownIt -> string -> result string.

(** [JSON.stringify]. *)
Variable JSON_stringify : value number -> string.

(** What [Frontmatter(code)] returns, and the call itself: it throws on a
    frontmatter block it cannot parse. *)
Record FrontMatterResult : Type := {
  attributes : value number;
  body : string
}.
Variable Frontmatter : string -> result FrontMatterResult.

(** node-html-parser: [parse] with or without options, [toString] of a node
    and of the root. *)
Variable parse : option NodeHtmlParser.ParseOptions -> string -> list NodeHtmlParser.Node.
Variable toString : NodeHtmlParser.Node -> string.
Variable root_toString : list NodeHtmlParser.Node -> string.

(** htmlparser2: [parseDOM] and the two serializers of [DomUtils]. *)
Variable parseDOM : string -> list DomHandler.Node.
Variable getInnerHTML : DomHandler.Node -> string.
Variable getOuterHTML : list DomHandler.Node -> string.

(** [transformSync(reactCode, { ast: false, presets: [...] }).code] of Babel
    and [compileTemplate({ source, filename }).code] of the Vue compiler. *)
Variable transformSync : string -> result string.
Variable compileTemplate : string -> string -> result string.

Definition vueParseOptions : NodeHtmlParser.ParseOptions :=
  {| NodeHtmlParser.opt_pre := true; NodeHtmlParser.opt_script := true;
     NodeHtmlParser.opt_comment := true; NodeHtmlParser.opt_style := true |}.

Definition addHtml (options : PluginOptions MarkdownIt) (html : string)
    (content : ExportedContent) : ExportedContent :=
  if is_true (mode_includes options HTML)
  then addProperty JSON_stringify "html" (JStr (JSON_stringify (JStr html))) None content
  else content.

Definition addToc (options : PluginOptions MarkdownIt) (html : string)
    (content : ExportedContent) : ExportedContent :=
  if is_true (mode_includes options TOC)
  then
    let root := parse None html in
    let toc := Outline.toc toString root in
    addProperty JSON_stringify "toc" (Outline.toc_value toc) None content
  else content.

Definition addReact (options : PluginOptions MarkdownIt) (html : string)
    (content : ExportedContent) : result ExportedContent :=
  if is_true (mode_includes options REACT)
  then
    let root := parseDOM html in
    let h := React.markup getInnerHTML getOuterHTML root in
    code <- transformSync (React.reactCode h) ;;
    Ok (addProperty JSON_stringify "ReactComponent"
          (JStr (React.compiledReactCode code)) (Some React.importReact) content)
  else Ok content.

Definition addVue (options : PluginOptions MarkdownIt) (html path : string)
    (content : ExportedContent) : result ExportedContent :=
  if is_true (mode_includes options VUE)
  then
    let root := parse (Some vueParseOptions) html in
    compiledVueCode <- compileTemplate (root_toString (Vue.adapt root)) path ;;
    Ok (addProperty JSON_stringify "VueComponent" (JStr "{ render: vueRender }")
          (Some (Vue.vueCode compiledVueCode)) content)
  else Ok content.

Definition transform (options : PluginOptions MarkdownIt) (code path : string)
    : result string :=
  let content := new_ExportedContent in
  fm <- Frontmatter code ;;
  let content := addProperty JSON_stringify "attributes" (attributes fm) None content in
  html <- render MarkdownIt_render (markdownCompiler MarkdownIt_new options) (body fm) ;;
  let content := addHtml options html content in
  let content := addToc options html content in
  content <- addReact options html content ;;
  content <- addVue options html path content ;;
  Ok (export content).

End Transform.

Arguments attributes {number} f.
Arguments body {number} f.
Arguments addHtml {number MarkdownIt} JSON_stringify options html content.
Arguments addToc {number MarkdownIt} JSON_stringify parse toString options html content.
Arguments addReact {number MarkdownIt} JSON_stringify parseDOM getInnerHTML getOuterHTML
  transformSync options html content.
Arguments addVue {number MarkdownIt} JSON_stringify parse root_toString compileTemplate
  options html path content.
Arguments transform {number MarkdownIt} MarkdownIt_new MarkdownIt_render JSON_stringify
  Frontmatter parse toString root_toString parseDOM getInnerHTML getOuterHTML
  transformSync compileTemplate options code path.

(** ** The plugin (lines 52 to 54 and 155 to 159) *)

(** A vite [Transform]: which paths it applies to, and the transform itself
    (the [code] field of the object it returns). *)
Record ViteTransform : Type := {
  test : string -> bool;
  run : string -> string -> result string
}.

(** Line 54. *)
Definition testPath (path : string) : bool := endsWith ".md" path.

Section Plugin.

Variable number : Type.
Variable MarkdownIt : Type.
Variable MarkdownIt_new : MarkdownItOptions -> MarkdownIt.
Variable MarkdownIt_render : MarkdownIt -> string -> result string.
Variable JSON_stringify : value number -> string.
Variable Frontmatter : string -> result (FrontMatterResult number).
Variable parse : option NodeHtmlParser.ParseOptions -> string -> list NodeHtmlParser.Node.
Variable toString : NodeHtmlParser.Node -> string.
Variable root_toString : list NodeHtmlParser.Node -> string.
Variable parseDOM : string -> list DomHandler.Node.
Variable getInnerHTML : DomHandler.Node -> string.
Variable getOuterHTML : list DomHandler.Node -> string.
Variable transformSync : string -> result string.
Variable compileTemplate : string -> string -> result string.

(** The object of line 53, for given options. *)
Definition transformFor (options : PluginOptions MarkdownIt) : ViteTransform :=
  {| test := testPath;
     run := transform MarkdownIt_new MarkdownIt_render JSON_stringify Frontmatter
              parse toString root_toString parseDOM getInnerHTML getOuterHTML
              transformSync compileTemplate options |}.

(** The options object [{}]. *)
Definition noOptions : PluginOptions MarkdownIt :=
  {| mode := None; markdown := None; markdownIt := None |}.

(** [module.exports]: the [transforms] of the plugin; an omitted argument is
    [{}]. *)
Definition module_exports (options : option (PluginOptions MarkdownIt))
    : list ViteTransform :=
  [transformFor match options with
                | Some o => o
                | None => noOptions
                end].

End Plugin.

Arguments noOptions {MarkdownIt}.
Arguments transformFor {number MarkdownIt} MarkdownIt_new MarkdownIt_render JSON_stringify
  Frontmatter parse toString root_toString parseDOM getInnerHTML getOuterHTML
  transformSync compileTemplate options.
Arguments module_exports {number MarkdownIt} MarkdownIt_new MarkdownIt_render JSON_stringify
  Frontmatter parse toString root_toString parseDOM getInnerHTML getOuterHTML
  transformSync compileTemplate options.

(** ** Reference collaborators

    Instances of the external functions, for running the transform on
    concrete documents: the serializers print a tree the way dom-serializer
    (entities left as parsed, a double quote in an attribute value written
    [&quot;]) and node-html-parser do; [JSON_stringify] prints values whose
    numbers are integers. The parsers, compilers and the frontmatter reader
    are small stand-ins. *)

Module Reference.

Definition singleTag : list string :=
  ["area"; "base"; "basefont"; "br"; "col"; "command"; "embed"; "frame"; "hr";
   "img"; "input"; "isindex"; "keygen"; "link"; "meta"; "param"; "source";
   "track"; "wbr"].

Definition formatAttribute (kv : string * string) : string :=
  if snd kv =? EmptyString then fst kv
  else fst kv ++ "=" ++ quote ++ replaceAll quote "&quot;" (snd kv) ++ quote.

Definition formatAttributes (a : props) : string :=
  join " " (map formatAttribute a).

Definition openTag (t : string) (a : props) : string :=
  match a with
  | [] => "<" ++ t ++ ">"
  | _ => "<" ++ t ++ " " ++ formatAttributes a ++ ">"
  end.

Fixpoint renderNode (n : DomHandler.Node) : string :=
  match n with
  | DomHandler.Element t a c =>
      openTag t a ++ String.concat EmptyString (map renderNode c) ++
      (if includes singleTag t then EmptyString else "</" ++ t ++ ">")
  | DomHandler.Text d => d
  | DomHandler.Comment d => "<!--" ++ d ++ "-->"
  | DomHandler.ProcessingInstruction _ d => "<" ++ d ++ ">"
  | DomHandler.CDATA c =>
      "<![CDATA[" ++
      match c with
      | DomHandler.Text d :: _ => d
      | _ => EmptyString
      end ++ "]]>"
  end.

Definition getOuterHTML (nodes : list DomHandler.Node) : string :=
  String.concat EmptyString (map renderNode nodes).

Definition getInnerHTML (n : DomHandler.Node) : string :=
  getOuterHTML (DomHandler.childNodes n).

Fixpoint toString (n : NodeHtmlParser.Node) : string :=
  match n with
  | NodeHtmlParser.HTMLElement t a c =>
      "<" ++ t ++
      String.concat EmptyString
        (map (fun kv => " " ++ fst kv ++ "=" ++ quote ++ snd kv ++ quote) a) ++
      ">" ++ String.concat EmptyString (map toString c) ++ "</" ++ t ++ ">"
  | NodeHtmlParser.TextNode raw => raw
  | NodeHtmlParser.CommentNode raw => "<!--" ++ raw ++ "-->"
  end.

Definition root_toString (root : list NodeHtmlParser.Node) : string :=
  String.concat EmptyString (map toString root).

Definition escapeChar (c : ascii) : string :=
  match nat_of_ascii c with
  | 34 => "\" ++ quote
  | 92 => "\\"
  | 10 => "\n"
  | 13 => "\r"
  | 9 => "\t"
  | _ => String c EmptyString
  end.

Fixpoint escape (s : string) : string :=
  match s with
  | EmptyString => EmptyString
  | String c s' => escapeChar c ++ escape s'
  end.

Definition stringLiteral (s : string) : string := quote ++ escape s ++ quote.

Fixpoint JSON_stringify (v : value Z) : string :=
  match v with
  | JNull => "null"
  | JBool true => "true"
  | JBool false => "false"
  | JNum n => NilZero.string_of_int (Z.to_int n)
  | JStr s => stringLiteral s
  | JArr xs => "[" ++ join "," (map JSON_stringify xs) ++ "]"
  | JObj fields =>
      "{" ++
      join "," (map (fun kv => stringLiteral (fst kv) ++ ":" ++ JSON_stringify (snd kv)) fields)
      ++ "}"
  end.

(** A renderer instance is identified with the options it was built from;
    it wraps the body in a paragraph. *)
Definition MarkdownIt : Type := MarkdownItOptions.
Definition MarkdownIt_new (o : MarkdownItOptions) : MarkdownIt := o.
Definition MarkdownIt_render (md : MarkdownIt) (body : string) : result string :=
  Ok ("<p>" ++ body ++ "</p>" ++ newline).

(** A frontmatter reader that knows three documents: one with a [title],
    one whose block is not valid YAML, and one whose block is a double-quoted
    YAML scalar, which is read as a string (its [\n] is a line break); any
    other text has no frontmatter. *)
Definition titled : string :=
  "---" ++ newline ++ "title: Hello" ++ newline ++ "---" ++ newline ++ "Hi".
Definition broken : string :=
  "---" ++ newline ++ "title: [" ++ newline ++ "---" ++ newline ++ "Hi".
Definition scalar : string :=
  "---" ++ newline ++ quote ++ "1\nexport const html = 2" ++ quote ++ newline ++
  "---" ++ newline ++ "Hi".

Definition Frontmatter (code : string) : result (FrontMatterResult Z) :=
  if code =? titled
  then Ok {| attributes := JObj [("title", JStr "Hello")]; body := "Hi" |}
  else if code =? broken
  then Throw "YAMLException: unexpected end of the stream within a flow collection"
  else if code =? scalar
  then Ok {| attributes := JStr ("1" ++ newline ++ "export const html = 2"); body := "Hi" |}
  else Ok {| attributes := JObj []; body := code |}.

(** Parsers that see no markup, and compilers that return their input. *)
Definition parse (_ : option NodeHtmlParser.ParseOptions) (html : string)
    : list NodeHtmlParser.Node :=
  [NodeHtmlParser.TextNode html].
Definition parseDOM (html : string) : list DomHandler.Node := [DomHandler.Text html].
Definition transformSync (code : string) : result string := Ok code.
Definition compileTemplate (source filename : string) : result string := Ok source.

Definition transform (options : PluginOptions MarkdownIt) (code path : string)
    : result string :=
  transform MarkdownIt_new MarkdownIt_render JSON_stringify Frontmatter
            parse toString root_toString parseDOM getInnerHTML getOuterHTML
            transformSync compileTemplate options code path.

End Reference.

(** * Properties *)

(** ** Objects as property lists *)

Lemma get_set_same (k v : string) (o : props) : get k (set k v o) = Some v.
Proof.
  induction o as [|[k' v'] o IH]; simpl.
  - now rewrite String.eqb_refl.
  - destruct (k' =? k) eqn:E; simpl.
    + now rewrite String.eqb_refl.
    + now rewrite E.
Qed.

Lemma get_set_other (k k' v : string) (o : props) :
  k <> k' -> get k (set k' v o) = get k o.
Proof.
  intros Hne. induction o as [|[k0 v0] o IH]; simpl.
  - destruct (k' =? k) eqn:E; [apply String.eqb_eq in E; congruence | reflexivity].
  - destruct (k0 =? k') eqn:E; simpl.
    + apply String.eqb_eq in E. subst k0.
      destruct (k' =? k) eqn:E'; [apply String.eqb_eq in E'; congruence | reflexivity].
    + now rewrite IH.
Qed.

Lemma get_delete_same (k : string) (o : props) : get k (delete k o) = None.
Proof.
  induction o as [|[k' v'] o IH]; simpl; [reflexivity|].
  destruct (k' =? k) eqn:E; simpl; [exact IH | now rewrite E].
Qed.

Lemma get_delete_other (k k' : string) (o : props) :
  k <> k' -> get k (delete k' o) = get k o.
Proof.
  intros Hne. induction o as [|[k0 v0] o IH]; simpl; [reflexivity|].
  destruct (k0 =? k') eqn:E; simpl.
  - apply String.eqb_eq in E. subst k0.
    destruct (k' =? k) eqn:E'; [apply String.eqb_eq in E'; congruence | exact IH].
  - now rewrite IH.
Qed.

Lemma set_set_same (k v : string) (o : props) : set k v (set k v o) = set k v o.
Proof.
  induction o as [|[k' v'] o IH]; simpl.
  - now rewrite String.eqb_refl.
  - destruct (k' =? k) eqn:E; simpl.
    + now rewrite String.eqb_refl.
    + now rewrite E, IH.
Qed.

Lemma truthy_Some (v : string) : truthy (Some v) = true <-> v <> EmptyString.
Proof.
  unfold truthy. destruct (v =? EmptyString) eqn:E; simpl.
  - apply String.eqb_eq in E. split; [discriminate | congruence].
  - apply String.eqb_neq in E. split; [auto | reflexivity].
Qed.

(** ** Global replacement of a literal pattern

    The three equations of the left-to-right scan: nothing in the empty
    string, a match is replaced and the scan goes on behind it, any other
    character is copied. *)

Lemma prefix_append (p s : string) : prefix p (p ++ s) = true.
Proof.
  induction p as [|a p IH]; simpl; [now destruct s|].
  destruct (ascii_dec a a) as [_|Hne]; [exact IH | now destruct Hne].
Qed.

Lemma replaceAll_from_skip (pat rep u : string) :
  forall s, replaceAll_from pat rep (String.length u) (u ++ s) = replaceAll_from pat rep 0 s.
Proof. induction u as [|a u IH]; intros s; simpl; [reflexivity | apply IH]. Qed.

Lemma replaceAll_empty (pat rep : string) : replaceAll pat rep EmptyString = EmptyString.
Proof. reflexivity. Qed.

Lemma replaceAll_match (a : ascii) (u rep s : string) :
  replaceAll (String a u) rep (String a u ++ s) = rep ++ replaceAll (String a u) rep s.
Proof.
  unfold replaceAll.
  change (String a u ++ s) with (String a (u ++ s)).
  cbn [replaceAll_from].
  change (String a (u ++ s)) with (String a u ++ s).
  rewrite prefix_append. cbn [String.length Nat.sub]. rewrite Nat.sub_0_r.
  now rewrite replaceAll_from_skip.
Qed.

Lemma replaceAll_other (pat rep : string) (c : ascii) (s : string) :
  prefix pat (String c s) = false ->
  replaceAll pat rep (String c s) = String c (replaceAll pat rep s).
Proof. intros H. unfold replaceAll. cbn [replaceAll_from]. now rewrite H. Qed.

(** ** The React pass *)

Section ReactPass.
Import DomHandler React.

Variable getInnerHTML : Node -> string.
Variable getOuterHTML : list Node -> string.

Local Notation mark := (markCodeAsPre getInnerHTML).

Lemma markCodeAsPre_code (a : props) (c : list Node) :
  mark (Element "code" a c) =
  Element "code"
    (set "dangerouslySetInnerHTML"
       (injection (getInnerHTML (Element "code" (renameClass "code" a) c)))
       (renameClass "code" a))
    [].
Proof. reflexivity. Qed.

Lemma markCodeAsPre_other (t : string) (a : props) (c : list Node) :
  (t =? "code") = false ->
  mark (Element t a c) = Element t (renameClass t a) (map mark c).
Proof. intros E. simpl. now rewrite E. Qed.

Lemma renameClass_frame (t : string) (a : props) :
  includes ["pre"; "code"] t = false -> renameClass t a = a.
Proof. intros E. unfold renameClass. now rewrite E. Qed.

Lemma renameClass_renames (t v : string) (a : props) :
  includes ["pre"; "code"] t = true ->
  get "class" a = Some v -> v <> EmptyString ->
  get "className" (renameClass t a) = Some v /\ get "class" (renameClass t a) = None.
Proof.
  intros Ht Hv Hne. unfold renameClass.
  apply truthy_Some in Hne. rewrite Hv, Hne, Ht. cbn [andb]. split.
  - rewrite get_delete_other by discriminate. apply get_set_same.
  - apply get_delete_same.
Qed.

(** The pass reaches every visited node, and leaves at its place the
    result of the pass on it. *)
Lemma visited_markCodeAsPre (p : list nat) :
  forall n m, visited p n = Some m -> subnode p (mark n) = Some (mark m).
Proof.
  induction p as [|i p IH]; intros n m H.
  - simpl in H. injection H as ->. reflexivity.
  - destruct n as [t a c| | | |]; simpl in H; try discriminate.
    destruct (t =? "code") eqn:E; [discriminate|].
    destruct (nth_error c i) as [x|] eqn:Hx; [|discriminate].
    rewrite (markCodeAsPre_other _ _ _ E). simpl.
    rewrite (map_nth_error mark _ _ Hx). now apply IH.
Qed.

(** A visited node is the node of the tree at that path. *)
Lemma visited_subnode (p : list nat) :
  forall n m, visited p n = Some m -> subnode p n = Some m.
Proof.
  induction p as [|i p IH]; intros n m H; [exact H|].
  destruct n as [t a c| | | |]; simpl in H; try discriminate.
  destruct (t =? "code"); [discriminate|]. simpl.
  destruct (nth_error c i) as [x|]; [now apply IH | discriminate].
Qed.

Lemma visited_of_root_markCodeAsPre (p : list nat) (root : list Node) (m : Node) :
  visited_of_root p root = Some m ->
  subnode_of_root p (map mark root) = Some (mark m).
Proof.
  destruct p as [|i p]; simpl; [discriminate|].
  destruct (nth_error root i) as [x|] eqn:Hx; [|discriminate].
  intros H. rewrite (map_nth_error mark _ _ Hx).
  now apply visited_markCodeAsPre.
Qed.

(** C1, as amended. For every tree handed to the React pass and every element
    the pass reaches (an element that does not lie inside a [code] element):
    if it is a [pre] or [code] element with a non-empty [class] attribute,
    the output element at the same place has that value under [className]
    and no [class]; if it is a [code] element, the output element has no
    children and its [dangerouslySetInnerHTML] attribute is the template
    literal of the serializer's inner HTML of the element, inserted as it is,
    between the two markers. The markup handed on is the serialization of
    the rewritten tree in which, afterwards, the tokens ["vfm{{] and [}}vfm"]
    are replaced by [{{] and [}}]. *)
Theorem C1_react_code_blocks (root : list Node) (p : list nat)
    (t : string) (a : props) (c : list Node) :
  visited_of_root p root = Some (Element t a c) ->
  exists a' c',
    subnode_of_root p (map mark root) = Some (Element t a' c') /\
    (includes ["pre"; "code"] t = true ->
     forall v, get "class" a = Some v -> v <> EmptyString ->
       get "className" a' = Some v /\ get "class" a' = None) /\
    (t = "code" ->
     c' = [] /\
     get "dangerouslySetInnerHTML" a' =
       Some ("vfm{{ __html: " ++ backtick ++
             getInnerHTML (Element t (renameClass t a) c) ++ backtick ++ "}}vfm")) /\
    markup getInnerHTML getOuterHTML root =
      replaceAll ("}}vfm" ++ quote) "}}"
        (replaceAll (quote ++ "vfm{{") "{{" (getOuterHTML (map mark root))).
Proof.
  intros H. apply visited_of_root_markCodeAsPre in H.
  destruct (t =? "code") eqn:E.
  - apply String.eqb_eq in E. subst t.
    rewrite markCodeAsPre_code in H.
    eexists _, _. split; [exact H|]. split; [|split].
    + intros Ht v Hv Hne.
      rewrite !get_set_other by discriminate.
      now apply renameClass_renames.
    + intros _. split; [reflexivity|]. apply get_set_same.
    + reflexivity.
  - rewrite (markCodeAsPre_other _ _ _ E) in H.
    eexists _, _. split; [exact H|]. split; [|split].
    + intros Ht v Hv Hne. now apply renameClass_renames.
    + intros ->. discriminate.
    + reflexivity.
Qed.

(** C10. For every tree handed to the React pass and every node the pass
    reaches, the output has at the same place the result of the pass on that
    node, and that result is: the node itself when it is not an element
    (text, comment, processing instruction, CDATA section); the same tag
    with the same attributes, over the results for its children in order,
    when it is an element other than [pre] and [code]. *)
Theorem C10_react_frame (root : list Node) (p : list nat) (n : Node) :
  visited_of_root p root = Some n ->
  subnode_of_root p (map mark root) = Some (mark n) /\
  match n with
  | Element t a c =>
      includes ["pre"; "code"] t = false -> mark n = Element t a (map mark c)
  | _ => mark n = n
  end.
Proof.
  intros H. split; [now apply visited_of_root_markCodeAsPre|].
  destruct n as [t a c| | | |]; try reflexivity.
  intros Ht.
  assert (E : (t =? "code") = false).
  { unfold includes in Ht. simpl in Ht.
    apply orb_false_iff in Ht as [_ Ht]. now apply orb_false_iff in Ht as [Ht _]. }
  rewrite (markCodeAsPre_other _ _ _ E). now rewrite renameClass_frame.
Qed.

End ReactPass.

Lemma C1_react_code_blocks_witness :
  exists a' c',
    DomHandler.subnode_of_root [0; 0]
      (map (React.markCodeAsPre Reference.getInnerHTML)
         [DomHandler.Element "pre" []
            [DomHandler.Element "code" [("class", "lang-js")] [DomHandler.Text "x&lt;1"]]])
    = Some (DomHandler.Element "code" a' c') /\
    get "className" a' = Some "lang-js" /\ get "class" a' = None /\
    c' = [] /\
    get "dangerouslySetInnerHTML" a' = Some ("vfm{{ __html: `x&lt;1`}}vfm").
Proof.
  destruct (C1_react_code_blocks Reference.getInnerHTML Reference.getOuterHTML
              [DomHandler.Element "pre" []
                 [DomHandler.Element "code" [("class", "lang-js")] [DomHandler.Text "x&lt;1"]]]
              [0; 0] "code" [("class", "lang-js")] [DomHandler.Text "x&lt;1"] eq_refl)
    as (a' & c' & Hsub & Hcls & Hcode & _).
  exists a', c'. split; [exact Hsub|].
  destruct (Hcls eq_refl "lang-js" eq_refl) as [H1 H2]; [discriminate|].
  destruct (Hcode eq_refl) as [H3 H4].
  repeat split; assumption.
Defined.

(** C1 as stated fails in two places. A [pre] element whose [class]
    attribute is empty keeps it and gets no [className]; and a [pre] element
    with a class inside a [code] element is not in the output tree at all
    (it survives only inside the captured inner HTML, with its [class]). *)
Lemma C1_class_not_always_renamed :
  (let node := DomHandler.Element "pre" [("class", EmptyString)] [] in
   get "class" (DomHandler.attribs_of node) = Some EmptyString /\
   get "class" (DomHandler.attribs_of (React.markCodeAsPre Reference.getInnerHTML node))
     = Some EmptyString /\
   get "className" (DomHandler.attribs_of (React.markCodeAsPre Reference.getInnerHTML node))
     = None) /\
  (let root := [DomHandler.Element "code" []
                  [DomHandler.Element "pre" [("class", "x")] []]] in
   DomHandler.subnode_of_root [0; 0] root
     = Some (DomHandler.Element "pre" [("class", "x")] []) /\
   DomHandler.subnode_of_root [0; 0]
     (map (React.markCodeAsPre Reference.getInnerHTML) root) = None /\
   DomHandler.subnode_of_root [0]
     (map (React.markCodeAsPre Reference.getInnerHTML) root)
     = Some (DomHandler.Element "code"
               [("dangerouslySetInnerHTML",
                 "vfm{{ __html: `<pre class=" ++ quote ++ "x" ++ quote ++ "></pre>`}}vfm")] [])).
Proof. repeat split. Qed.

Lemma C10_react_frame_witness :
  let root := [DomHandler.Element "p" [("class", "note")]
                 [DomHandler.Text "a"; DomHandler.Element "code" [] [DomHandler.Text "b"]]] in
  DomHandler.subnode_of_root [0] (map (React.markCodeAsPre Reference.getInnerHTML) root)
  = Some (DomHandler.Element "p" [("class", "note")]
            [DomHandler.Text "a";
             DomHandler.Element "code"
               [("dangerouslySetInnerHTML", "vfm{{ __html: `b`}}vfm")] []]).
Proof.
  intros root.
  destruct (C10_react_frame Reference.getInnerHTML root [0]
              (DomHandler.Element "p" [("class", "note")]
                 [DomHandler.Text "a"; DomHandler.Element "code" [] [DomHandler.Text "b"]])
              eq_refl) as [H1 H2].
  rewrite H1. rewrite (H2 eq_refl). reflexivity.
Defined.

(** The code block of the highlighted-code example, through the reference serializer: the
    entity in the code stays as written, and the injection is a live
    expression. *)
Example react_markup_of_code_block :
  React.markup Reference.getInnerHTML Reference.getOuterHTML
    [DomHandler.Element "pre" []
       [DomHandler.Element "code" [("class", "lang-js")] [DomHandler.Text "x&lt;1"]]]
  = "<pre><code className=" ++ quote ++ "lang-js" ++ quote ++
    " dangerouslySetInnerHTML={{ __html: `x&lt;1`}}></code></pre>".
Proof. reflexivity. Qed.

(** The marker tokens are stripped wherever the serialization holds them,
    also in text that was written so. *)
Example react_markers_in_text :
  React.markup Reference.getInnerHTML Reference.getOuterHTML
    [DomHandler.Element "p" [] [DomHandler.Text (quote ++ "vfm{{ hello }}vfm" ++ quote)]]
  = "<p>{{ hello }}</p>".
Proof. reflexivity. Qed.

(** ** The Vue pass *)

Section VuePass.
Import NodeHtmlParser Vue.

Lemma childNodes_markCodeAsPre (n : Node) :
  childNodes (markCodeAsPre n) = map markCodeAsPre (childNodes n).
Proof. destruct n; reflexivity. Qed.

Lemma childNodes_markTopLevel (n : Node) :
  childNodes (markTopLevel n) = childNodes n.
Proof.
  destruct n as [t a c| |]; try reflexivity.
  unfold markTopLevel. now destruct (includes ["pre"; "code"] t).
Qed.

(** The recursive pass keeps the shape of the tree: what it leaves at a
    place is its result on what was there. *)
Lemma subnode_markCodeAsPre (p : list nat) :
  forall n, subnode p (markCodeAsPre n) = option_map markCodeAsPre (subnode p n).
Proof.
  induction p as [|i p IH]; intros n; [reflexivity|].
  simpl. rewrite childNodes_markCodeAsPre, nth_error_map.
  destruct (nth_error (childNodes n) i) as [x|]; simpl; [apply IH | reflexivity].
Qed.

Lemma subnode_markTopLevel (i : nat) (p : list nat) (n : Node) :
  subnode (i :: p) (markTopLevel n) = subnode (i :: p) n.
Proof. simpl. now rewrite childNodes_markTopLevel. Qed.

Lemma markCodeAsPre_markTopLevel (t : string) (a : props) (c : list Node) :
  markCodeAsPre (markTopLevel (HTMLElement t a c)) =
  HTMLElement t
    (if (t =? "code") || (t =? "pre") then set "v-pre" "true" a else a)
    (map markCodeAsPre c).
Proof.
  unfold markTopLevel, includes. simpl existsb.
  destruct (t =? "code") eqn:Ec, (t =? "pre") eqn:Ep; simpl; rewrite ?Ec;
    rewrite ?set_set_same; reflexivity.
Qed.

(** C2. For every tree handed to the Vue pass and every node of it, the
    tree given to the serializer (and from there to the template compiler)
    has at the same place: for an element, the same tag over the passed
    children, with [v-pre="true"] set when the element is a [code] element
    (anywhere) or a [pre] element that is a child of the root, and with its
    attributes as they were otherwise (so for a [pre] below the top level,
    and for a [p]); for a text or comment node, the node itself, whatever
    braces its text holds. *)
Theorem C2_vue_verbatim (root : list Node) (p : list nat) (n : Node) :
  subnode_of_root p root = Some n ->
  match n with
  | HTMLElement t a c =>
      exists a',
        subnode_of_root p (adapt root) = Some (HTMLElement t a' (map markCodeAsPre c)) /\
        (t = "code" \/ (t = "pre" /\ length p = 1) ->
         a' = set "v-pre" "true" a /\ get "v-pre" a' = Some "true") /\
        (t <> "code" -> (t <> "pre" \/ length p <> 1) -> a' = a)
  | _ => subnode_of_root p (adapt root) = Some n
  end.
Proof.
  unfold adapt. destruct p as [|i [|j q]]; simpl; [discriminate| |].
  - (* a child of the root *)
    rewrite !nth_error_map.
    destruct (nth_error root i) as [x|]; [|discriminate].
    intros [= ->]. simpl option_map.
    destruct n as [t a c| |]; try reflexivity.
    rewrite markCodeAsPre_markTopLevel.
    eexists. split; [reflexivity|]. split.
    + intros Ht.
      assert (E : (t =? "code") || (t =? "pre") = true).
      { destruct Ht as [->|[-> _]]; reflexivity. }
      rewrite E. split; [reflexivity | apply get_set_same].
    + intros Hc [Hp|Hl]; [|congruence].
      apply String.eqb_neq in Hc, Hp. now rewrite Hc, Hp.
  - (* below the top level *)
    rewrite !nth_error_map.
    destruct (nth_error root i) as [x|]; [|discriminate].
    intros H.
    assert (Hout : subnode (j :: q) (markCodeAsPre (markTopLevel x))
                   = Some (markCodeAsPre n)).
    { rewrite subnode_markCodeAsPre, subnode_markTopLevel.
      change (subnode (j :: q) x = Some n) in H. now rewrite H. }
    destruct n as [t a c| |]; try exact Hout.
    eexists. split; [exact Hout|]. split.
    + intros [->|[_ Hl]]; [|discriminate].
      split; [reflexivity | apply get_set_same].
    + intros Hc _. apply String.eqb_neq in Hc. simpl. now rewrite Hc.
Qed.

End VuePass.

Lemma C2_vue_verbatim_witness :
  let root :=
    [NodeHtmlParser.HTMLElement "pre" [] [NodeHtmlParser.TextNode "code1"];
     NodeHtmlParser.HTMLElement "p" [] [NodeHtmlParser.TextNode "{{ not a binding }}"]] in
  Vue.adapt root =
    [NodeHtmlParser.HTMLElement "pre" [("v-pre", "true")] [NodeHtmlParser.TextNode "code1"];
     NodeHtmlParser.HTMLElement "p" [] [NodeHtmlParser.TextNode "{{ not a binding }}"]] /\
  NodeHtmlParser.subnode_of_root [1; 0] (Vue.adapt root)
    = Some (NodeHtmlParser.TextNode "{{ not a binding }}").
Proof.
  intros root. split; [reflexivity|].
  exact (C2_vue_verbatim root [1; 0] (NodeHtmlParser.TextNode "{{ not a binding }}") eq_refl).
Defined.

(** ** The outline *)

Section OutlineProperties.
Import NodeHtmlParser Outline.
Local Open Scope list_scope.

Variable toString : Node -> string.

Lemma includes_In (xs : list string) (x : string) :
  includes xs x = true <-> In x xs.
Proof.
  unfold includes. rewrite existsb_exists. split.
  - intros (y & Hy & E). apply String.eqb_eq in E. now subst.
  - intros H. exists x. split; [assumption | apply String.eqb_refl].
Qed.

Lemma toc_app (l1 l2 : list Node) :
  toc toString (l1 ++ l2) = toc toString l1 ++ toc toString l2.
Proof. unfold toc. now rewrite filter_app, map_app. Qed.

Lemma toc_cons (n : Node) (l : list Node) :
  toc toString (n :: l) =
  (if isHeading n then [entry toString n] else []) ++ toc toString l.
Proof. unfold toc. simpl. now destruct (isHeading n). Qed.

(** What the code computes for [content]: the children's strings joined by
    commas. *)
Lemma entry_content (t : string) (a : props) (c : list Node) :
  content (entry toString (HTMLElement t a c)) = join "," (map toString c).
Proof. reflexivity. Qed.

Lemma heading_level (t : string) :
  In t headings ->
  In (replace "h" EmptyString t) ["1"; "2"; "3"; "4"; "5"; "6"] /\
  t = ("h" ++ replace "h" EmptyString t)%string.
Proof.
  unfold headings. simpl.
  intros [<-|[<-|[<-|[<-|[<-|[<-|[]]]]]]]; simpl; split; auto 10.
Qed.

(** C3, as amended. Every outline entry comes from an element [hN] among
    the root's children, [N] one of 1 to 6; its [level] is the string of the
    numeral [N] (not a number), and when the heading has no child its
    [content] is empty, when it has one child its [content] is that child's
    serialization. (Nothing is said here of a heading with several
    children.) *)
Theorem C3_outline_entries (root : list Node) (e : Entry) :
  In e (toc toString root) ->
  exists t a c,
    In (HTMLElement t a c) root /\
    In (level e) ["1"; "2"; "3"; "4"; "5"; "6"] /\
    t = ("h" ++ level e)%string /\
    (c = [] -> content e = EmptyString) /\
    (forall n, c = [n] -> content e = toString n).
Proof.
  unfold toc. rewrite in_map_iff. intros (n & <- & Hn).
  apply filter_In in Hn as [Hin Hh].
  destruct n as [t a c| |]; try discriminate.
  change (includes headings t = true) in Hh. apply includes_In in Hh.
  destruct (heading_level t Hh) as [Hl Ht].
  exists t, a, c. repeat split; try assumption.
  - now intros ->.
  - now intros n ->.
Qed.

(** C4. The outline is built from the root's children alone, in their
    order: an element [h1] to [h6] among them gives exactly one entry, at
    its place between the entries of the children before it and those after
    it; any other child (a text or comment node, or an element with another
    tag, whatever headings it contains) gives none. *)
Theorem C4_outline_top_level :
  toc toString [] = [] /\
  (forall before t a c after,
     In t ["h1"; "h2"; "h3"; "h4"; "h5"; "h6"] ->
     toc toString (before ++ HTMLElement t a c :: after) =
     toc toString before ++ entry toString (HTMLElement t a c) :: toc toString after) /\
  (forall before n after,
     (forall t a c, n = HTMLElement t a c -> ~ In t ["h1"; "h2"; "h3"; "h4"; "h5"; "h6"]) ->
     toc toString (before ++ n :: after) = toc toString before ++ toc toString after).
Proof.
  split; [reflexivity|]. split.
  - intros before t a c after Ht.
    rewrite toc_app, toc_cons. unfold isHeading.
    apply (includes_In headings) in Ht. now rewrite Ht.
  - intros before n after Hn.
    rewrite toc_app, toc_cons.
    destruct n as [t a c| |]; try reflexivity.
    unfold isHeading. destruct (includes headings t) eqn:E; [|reflexivity].
    apply includes_In in E. now destruct (Hn t a c eq_refl).
Qed.

End OutlineProperties.

Lemma C3_outline_entries_witness :
  exists t a c,
    In (NodeHtmlParser.HTMLElement t a c)
       [NodeHtmlParser.HTMLElement "h2" [] [NodeHtmlParser.TextNode "A"];
        NodeHtmlParser.HTMLElement "h3" [] [NodeHtmlParser.TextNode "B"]] /\
    In "3" ["1"; "2"; "3"; "4"; "5"; "6"] /\
    t = "h3" /\
    (c = [] -> "B" = EmptyString) /\
    (forall n, c = [n] -> "B" = Reference.toString n).
Proof.
  apply (C3_outline_entries Reference.toString
           [NodeHtmlParser.HTMLElement "h2" [] [NodeHtmlParser.TextNode "A"];
            NodeHtmlParser.HTMLElement "h3" [] [NodeHtmlParser.TextNode "B"]]
           {| Outline.level := "3"; Outline.content := "B" |}).
  simpl. right. left. reflexivity.
Defined.

(** C3 as stated fails on the document [<h2>A</h2><h3>B</h3>]: for it
    the exported outline holds the levels as the strings ["2"] and ["3"],
    not as the numbers 2 and 3. *)
Lemma C3_level_is_not_a_number :
  let root := [NodeHtmlParser.HTMLElement "h2" [] [NodeHtmlParser.TextNode "A"];
               NodeHtmlParser.HTMLElement "h3" [] [NodeHtmlParser.TextNode "B"]] in
  Outline.toc_value (number := Z) (Outline.toc Reference.toString root) =
    JArr [JObj [("level", JStr "2"); ("content", JStr "A")];
          JObj [("level", JStr "3"); ("content", JStr "B")]] /\
  Outline.toc_value (Outline.toc Reference.toString root) <>
    JArr [JObj [("level", JNum 2%Z); ("content", JStr "A")];
          JObj [("level", JNum 3%Z); ("content", JStr "B")]].
Proof. split; [reflexivity | discriminate]. Qed.

(** The [content] of a heading with several children has a comma between
    them: [<h2>Hello <em>world</em></h2>] gives [Hello ,<em>world</em>]. *)
Example outline_content_of_several_children :
  Outline.toc Reference.toString
    [NodeHtmlParser.HTMLElement "h2" []
       [NodeHtmlParser.TextNode "Hello ";
        NodeHtmlParser.HTMLElement "em" [] [NodeHtmlParser.TextNode "world"]]]
  = [{| Outline.level := "2"; Outline.content := "Hello ,<em>world</em>" |}].
Proof. reflexivity. Qed.

Lemma C4_outline_top_level_witness :
  Outline.toc Reference.toString
    ([NodeHtmlParser.HTMLElement "div" []
        [NodeHtmlParser.HTMLElement "h1" [] [NodeHtmlParser.TextNode "in"]]]
     ++ NodeHtmlParser.HTMLElement "h2" [] [NodeHtmlParser.TextNode "A"] :: [])%list
  = [{| Outline.level := "2"; Outline.content := "A" |}].
Proof.
  destruct (C4_outline_top_level Reference.toString) as (_ & Hh & Ho).
  rewrite (Hh [NodeHtmlParser.HTMLElement "div" []
                 [NodeHtmlParser.HTMLElement "h1" [] [NodeHtmlParser.TextNode "in"]]]
              "h2" [] [NodeHtmlParser.TextNode "A"] []).
  - assert (Hdiv := Ho [] (NodeHtmlParser.HTMLElement "div" []
                      [NodeHtmlParser.HTMLElement "h1" [] [NodeHtmlParser.TextNode "in"]]) []).
    simpl app in Hdiv. rewrite Hdiv.
    + reflexivity.
    + intros t a c [= <- _ _]. simpl. intuition discriminate.
  - simpl. auto.
Defined.

(** ** The module emitter *)

Lemma append_assoc (a b c : string) : (a ++ b) ++ c = a ++ (b ++ c).
Proof. induction a as [|x a IH]; simpl; [reflexivity | now rewrite IH]. Qed.

Lemma append_nil_r (a : string) : a ++ EmptyString = a.
Proof. induction a as [|x a IH]; simpl; [reflexivity | now rewrite IH]. Qed.

Section EmitterProperties.

Variable number : Type.
Variable JSON_stringify : value number -> string.

Local Notation call := (string * value number * option string)%type.

Lemma addProperties_from (calls : list call) :
  forall this,
    exports (addProperties JSON_stringify calls this) =
      exports this ++
      String.concat EmptyString
        (map (fun c : call => exportStatement JSON_stringify (fst (fst c)) (snd (fst c))) calls)
    /\
    contextCode (addProperties JSON_stringify calls this) =
      contextCode this ++
      String.concat EmptyString (map (fun c : call => contextStatement (snd c)) calls).
Proof.
  induction calls as [|c calls IH]; intros this.
  - simpl. now rewrite !append_nil_r.
  - unfold addProperties in *. simpl fold_left.
    destruct (IH (addProperty JSON_stringify (fst (fst c)) (snd (fst c)) (snd c) this))
      as [He Hc].
    rewrite He, Hc. simpl exports. simpl contextCode. rewrite !append_assoc.
    destruct calls; simpl; rewrite ?append_nil_r; split; reflexivity.
Qed.

Lemma contextStatement_text (context : option string) :
  contextStatement context =
  match context with
  | Some code => if code =? EmptyString then EmptyString else code ++ newline
  | None => EmptyString
  end.
Proof.
  destruct context as [code|]; [|reflexivity].
  simpl. now destruct (code =? EmptyString).
Qed.

(** C8. After any sequence of [addProperty] calls on a new
    [ExportedContent], [export()] returns: for each call that gave a
    non-empty context code, in call order, that code and a line break; then
    a line break; then for each call, in call order, the statement
    [export const <key> = <value>] and a line break, the value being the
    string itself when the call gave a string and [JSON.stringify] of it
    otherwise. *)
Theorem C8_export_order (calls : list call) :
  export (addProperties JSON_stringify calls new_ExportedContent) =
  String.concat EmptyString
    (map (fun c : call =>
            match snd c with
            | Some code => if code =? EmptyString then EmptyString else code ++ newline
            | None => EmptyString
            end) calls)
  ++ newline ++
  String.concat EmptyString
    (map (fun c : call =>
            "export const " ++ fst (fst c) ++ " = " ++
            match snd (fst c) with
            | JStr s => s
            | _ => JSON_stringify (snd (fst c))
            end ++ newline) calls).
Proof.
  unfold export. simpl join.
  destruct (addProperties_from calls new_ExportedContent) as [-> ->].
  cbn [exports contextCode new_ExportedContent append].
  rewrite (map_ext (fun c : call => contextStatement (snd c)) _
             (fun c => contextStatement_text (snd c))).
  reflexivity.
Qed.

End EmitterProperties.

Lemma C8_export_order_witness :
  export
    (addProperties Reference.JSON_stringify
       [("attributes", JObj [("title", JStr "Hello")], None);
        ("html", JStr "<p>Hi</p>", Some EmptyString);
        ("ReactComponent", JStr "function (props) {}", Some React.importReact);
        ("VueComponent", JStr "{ render: vueRender }", Some "function vueRender() {}")]
       new_ExportedContent)
  = React.importReact ++ newline ++
    "function vueRender() {}" ++ newline ++
    newline ++
    "export const attributes = {" ++ quote ++ "title" ++ quote ++ ":" ++
      quote ++ "Hello" ++ quote ++ "}" ++ newline ++
    "export const html = <p>Hi</p>" ++ newline ++
    "export const ReactComponent = function (props) {}" ++ newline ++
    "export const VueComponent = { render: vueRender }" ++ newline.
Proof.
  exact (C8_export_order Z Reference.JSON_stringify
           [("attributes", JObj [("title", JStr "Hello")], None);
            ("html", JStr "<p>Hi</p>", Some EmptyString);
            ("ReactComponent", JStr "function (props) {}", Some React.importReact);
            ("VueComponent", JStr "{ render: vueRender }", Some "function vueRender() {}")]).
Defined.

(** ** Renderer resolution *)

Section RendererProperties.

Variable MarkdownIt : Type.
Variable MarkdownIt_new : MarkdownItOptions -> MarkdownIt.

Lemma mode_includes_true (options : PluginOptions MarkdownIt) (m : Mode) :
  is_true (mode_includes options m) = true <->
  exists ms, mode options = Some ms /\ In m ms.
Proof.
  unfold mode_includes. destruct (mode options) as [ms|]; simpl.
  - destruct (existsb (Mode_eqb m) ms) eqn:E.
    + apply existsb_exists in E as (x & Hx & Hm).
      split; [|reflexivity]. intros _. exists ms. split; [reflexivity|].
      now destruct m, x.
    + split; [discriminate|]. intros (ms' & [= <-] & Hin).
      rewrite <- E. apply existsb_exists. exists m. split; [assumption | now destruct m].
  - split; [discriminate | intros (ms & H & _); discriminate].
Qed.

(** C7. The renderer that [markdownCompiler] returns: a supplied instance
    itself; for a supplied options object, the renderer constructed from that
    object; the custom function exactly when no instance or options object is
    supplied and a function is; and with none of the three, the renderer
    constructed from options that set [html] to true and [xhtmlOut] to a
    value that is true if and only if [mode] is given and contains REACT,
    and set nothing else. *)
Theorem C7_renderer_resolution (options : PluginOptions MarkdownIt) :
  (forall md, markdownIt options = Some (Instance md) ->
     markdownCompiler MarkdownIt_new options = OfMarkdownIt md) /\
  (forall o, markdownIt options = Some (Options o) ->
     markdownCompiler MarkdownIt_new options = OfMarkdownIt (MarkdownIt_new o)) /\
  (forall f, markdownCompiler MarkdownIt_new options = OfFunction f <->
     markdownIt options = None /\ markdown options = Some f) /\
  (markdownIt options = None -> markdown options = None ->
     exists o,
       markdownCompiler MarkdownIt_new options = OfMarkdownIt (MarkdownIt_new o) /\
       html o = Some true /\
       (is_true (xhtmlOut o) = true <-> exists ms, mode options = Some ms /\ In REACT ms) /\
       o = html_xhtmlOut (html o) (xhtmlOut o)).
Proof.
  unfold markdownCompiler. split; [|split; [|split]].
  - now intros md ->.
  - now intros o ->.
  - intros f. split.
    + destruct (markdownIt options) as [[md|o]|]; try discriminate.
      destruct (markdown options) as [g|]; [|discriminate].
      now intros [= ->].
    + now intros [-> ->].
  - intros -> ->. eexists. split; [reflexivity|]. split; [reflexivity|].
    split; [apply mode_includes_true | reflexivity].
Qed.

End RendererProperties.

Lemma C7_renderer_resolution_witness :
  exists o,
    markdownCompiler Reference.MarkdownIt_new
      {| mode := Some [TOC; REACT]; markdown := None; markdownIt := None |}
    = OfMarkdownIt (Reference.MarkdownIt_new o) /\
    html o = Some true /\ xhtmlOut o = Some true.
Proof.
  destruct (C7_renderer_resolution Reference.MarkdownIt Reference.MarkdownIt_new
              {| mode := Some [TOC; REACT]; markdown := None; markdownIt := None |})
    as (_ & _ & _ & Hdefault).
  destruct (Hdefault eq_refl eq_refl) as (o & Hc & Hh & Hx & _).
  exists o. split; [exact Hc|]. split; [exact Hh|].
  assert (Ht : is_true (xhtmlOut o) = true).
  { apply Hx. exists [TOC; REACT]. split; [reflexivity | simpl; auto]. }
  destruct (xhtmlOut o) as [[|]|]; try discriminate. reflexivity.
Defined.

Lemma append_cancel (p x y : string) : p ++ x = p ++ y -> x = y.
Proof.
  induction p as [|c p IH]; simpl; intros H; [exact H|].
  apply IH. now injection H.
Qed.

(** A text without line break, followed by one: the line break that ends it
    is the only one. *)
Lemma line_break_only_at_end (s : string) :
  ~ In (ascii_of_nat 10) (list_ascii_of_string s) ->
  forall x y,
    s ++ String (ascii_of_nat 10) EmptyString = x ++ String (ascii_of_nat 10) y ->
    x = s /\ y = EmptyString.
Proof.
  induction s as [|c s IH]; intros Hs [|c' x] y H; simpl in *.
  - now injection H as <-.
  - injection H as _ H. now destruct x.
  - injection H as -> _. tauto.
  - injection H as -> H. destruct (IH (fun Hin => Hs (or_intror Hin)) x y H) as [-> ->].
    now split.
Qed.

(** ** The transform *)

Section TransformProperties.

Variable number : Type.
Variable MarkdownIt : Type.
Variable MarkdownIt_new : MarkdownItOptions -> MarkdownIt.
Variable MarkdownIt_render : MarkdownIt -> string -> result string.
Variable JSON_stringify : value number -> string.
Variable Frontmatter : string -> result (FrontMatterResult number).
Variable parse : option NodeHtmlParser.ParseOptions -> string -> list NodeHtmlParser.Node.
Variable toString : NodeHtmlParser.Node -> string.
Variable root_toString : list NodeHtmlParser.Node -> string.
Variable parseDOM : string -> list DomHandler.Node.
Variable getInnerHTML : DomHandler.Node -> string.
Variable getOuterHTML : list DomHandler.Node -> string.
Variable transformSync : string -> result string.
Variable compileTemplate : string -> string -> result string.

Local Notation run :=
  (transform MarkdownIt_new MarkdownIt_render JSON_stringify Frontmatter
             parse toString root_toString parseDOM getInnerHTML getOuterHTML
             transformSync compileTemplate).
Local Notation withHtml := (addHtml JSON_stringify).
Local Notation withToc := (addToc JSON_stringify parse toString).
Local Notation withReact :=
  (addReact JSON_stringify parseDOM getInnerHTML getOuterHTML transformSync).
Local Notation withVue := (addVue JSON_stringify parse root_toString compileTemplate).

(** [content] still begins with the export statements [stmts]. *)
Local Notation begins stmts content := (exists rest, exports content = stmts ++ rest).

Lemma begins_addProperty (stmts key : string) (v : value number)
    (context : option string) (content : ExportedContent) :
  begins stmts content -> begins stmts (addProperty JSON_stringify key v context content).
Proof.
  intros [rest H]. exists (rest ++ exportStatement JSON_stringify key v).
  simpl. now rewrite H, append_assoc.
Qed.

Lemma begins_addHtml (stmts : string) (options : PluginOptions MarkdownIt)
    (html : string) (content : ExportedContent) :
  begins stmts content -> begins stmts (withHtml options html content).
Proof.
  intros H. unfold addHtml.
  destruct (is_true (mode_includes options HTML)); [now apply begins_addProperty | assumption].
Qed.

Lemma begins_addToc (stmts : string) (options : PluginOptions MarkdownIt)
    (html : string) (content : ExportedContent) :
  begins stmts content -> begins stmts (withToc options html content).
Proof.
  intros H. unfold addToc.
  destruct (is_true (mode_includes options TOC)); [now apply begins_addProperty | assumption].
Qed.

Lemma begins_addReact (stmts : string) (options : PluginOptions MarkdownIt)
    (html : string) (content content' : ExportedContent) :
  begins stmts content -> withReact options html content = Ok content' ->
  begins stmts content'.
Proof.
  intros H. unfold addReact.
  destruct (is_true (mode_includes options REACT)).
  - destruct (transformSync _); simpl; [|discriminate].
    intros [= <-]. now apply begins_addProperty.
  - now intros [= <-].
Qed.

Lemma begins_addVue (stmts : string) (options : PluginOptions MarkdownIt)
    (html path : string) (content content' : ExportedContent) :
  begins stmts content -> withVue options html path content = Ok content' ->
  begins stmts content'.
Proof.
  intros H. unfold addVue.
  destruct (is_true (mode_includes options VUE)).
  - destruct (compileTemplate _ _); simpl; [|discriminate].
    intros [= <-]. now apply begins_addProperty.
  - now intros [= <-].
Qed.

(** C5. When [Frontmatter] throws on the document, [transform] throws the
    same error: it returns no module text. *)
Theorem C5_frontmatter_error_propagates (options : PluginOptions MarkdownIt)
    (code path : string) (e : exn) :
  Frontmatter code = Throw e -> run options code path = Throw e.
Proof. intros H. unfold transform. now rewrite H. Qed.

Lemma no_mode (options : PluginOptions MarkdownIt) (m : Mode) :
  mode options = None \/ mode options = Some [] ->
  is_true (mode_includes options m) = false.
Proof. unfold mode_includes. now intros [-> | ->]. Qed.

(** C6, as amended. With [mode] absent or empty, for a document whose
    frontmatter is read and is not a string and whose body is rendered
    ([JSON.stringify] writing no line break), [transform] returns the text
    made of a line break, [export const attributes = ], [JSON.stringify] of
    the frontmatter, and a line break; the only place in that text where a
    line begins with [export const ] is that statement, so the text exports
    [attributes] and neither [html], [toc], [ReactComponent] nor
    [VueComponent]. *)
Theorem C6_metadata_only (options : PluginOptions MarkdownIt) (code path : string)
    (fm : FrontMatterResult number) (html : string) :
  mode options = None \/ mode options = Some [] ->
  Frontmatter code = Ok fm ->
  (forall s, attributes fm <> JStr s) ->
  render MarkdownIt_render (markdownCompiler MarkdownIt_new options) (body fm) = Ok html ->
  ~ In (ascii_of_nat 10) (list_ascii_of_string (JSON_stringify (attributes fm))) ->
  exists text,
    run options code path = Ok text /\
    text = newline ++ "export const attributes = " ++
           JSON_stringify (attributes fm) ++ newline /\
    (forall a b,
       text = a ++ newline ++ "export const " ++ b ->
       a = EmptyString /\
       b = "attributes = " ++ JSON_stringify (attributes fm) ++ newline) /\
    (forall key, In key ["html"; "toc"; "ReactComponent"; "VueComponent"] ->
       forall a b, text <> a ++ newline ++ "export const " ++ key ++ b).
Proof.
  intros Hmode Hfm Hns Hr Hfree.
  set (json := JSON_stringify (attributes fm)) in *.
  assert (Hone : forall a b,
            newline ++ "export const attributes = " ++ json ++ newline
            = a ++ newline ++ "export const " ++ b ->
            a = EmptyString /\ b = "attributes = " ++ json ++ newline).
  { intros [|c a] b H.
    - split; [reflexivity|].
      change ((newline ++ "export const ") ++ "attributes = " ++ json ++ newline
              = (newline ++ "export const ") ++ b) in H.
      apply append_cancel in H. now symmetry.
    - unfold newline in H. simpl in H. injection H as _ H.
      change (("export const attributes = " ++ json) ++ String (ascii_of_nat 10) EmptyString
              = a ++ String (ascii_of_nat 10) ("export const " ++ b)) in H.
      apply line_break_only_at_end in H as [_ H]; [discriminate|].
      intros Hin. apply Hfree. clear -Hin. simpl in Hin.
      repeat (destruct Hin as [Hin|Hin]; [discriminate Hin|]). exact Hin. }
  eexists. split; [|split; [reflexivity|split]].
  - unfold transform, addHtml, addToc, addReact, addVue.
    rewrite !(no_mode _ _ Hmode), Hfm. cbn [bind]. rewrite Hr. cbn [bind].
    unfold export, addProperty, exportStatement, exportedContent. fold json.
    destruct (attributes fm) eqn:E; try reflexivity.
    now destruct (Hns s).
  - exact Hone.
  - intros key Hkey a b H.
    apply Hone in H as [_ H].
    simpl in Hkey. destruct Hkey as [<-|[<-|[<-|[<-|[]]]]]; discriminate H.
Qed.

(** C9. When the frontmatter is read and is a mapping, every text that
    [transform] returns is the context code, a line break, and export
    statements of which the first is [export const attributes = ] followed by
    [JSON.stringify] of that mapping. *)
Theorem C9_attributes_export (options : PluginOptions MarkdownIt) (code path text : string)
    (fm : FrontMatterResult number) (fields : list (string * value number)) :
  Frontmatter code = Ok fm ->
  attributes fm = JObj fields ->
  run options code path = Ok text ->
  exists context rest,
    text = context ++ newline ++
           "export const attributes = " ++ JSON_stringify (JObj fields) ++ newline ++ rest.
Proof.
  intros Hfm Hattrs. unfold transform. rewrite Hfm. simpl bind.
  destruct (render _ _ _) as [html|e]; simpl bind; [|discriminate].
  set (c0 := addProperty JSON_stringify "attributes" (attributes fm) None new_ExportedContent).
  assert (H0 : begins ("export const attributes = " ++ JSON_stringify (JObj fields) ++ newline) c0).
  { exists EmptyString. subst c0. rewrite Hattrs. simpl. now rewrite append_nil_r. }
  apply (begins_addHtml _ options html) in H0.
  apply (begins_addToc _ options html) in H0.
  destruct (withReact options html _) as [c1|e] eqn:E1; simpl bind; [|discriminate].
  apply (begins_addReact _ _ _ _ _ H0) in E1.
  destruct (withVue options html path c1) as [c2|e] eqn:E2; simpl bind; [|discriminate].
  apply (begins_addVue _ _ _ _ _ _ E1) in E2. destruct E2 as [rest Hrest].
  intros [= <-]. exists (contextCode c2), rest.
  unfold export. simpl join. rewrite Hrest. now rewrite !append_assoc.
Qed.

End TransformProperties.

Lemma C5_frontmatter_error_propagates_witness :
  Reference.transform
    {| mode := Some [HTML; TOC]; markdown := None; markdownIt := None |}
    Reference.broken "a.md"
  = Throw "YAMLException: unexpected end of the stream within a flow collection".
Proof.
  unfold Reference.transform.
  apply C5_frontmatter_error_propagates. reflexivity.
Defined.

Lemma C6_metadata_only_witness :
  Reference.transform
    {| mode := Some []; markdown := None; markdownIt := None |}
    Reference.titled "a.md"
  = Ok (newline ++ "export const attributes = {" ++ quote ++ "title" ++ quote ++ ":" ++
        quote ++ "Hello" ++ quote ++ "}" ++ newline).
Proof.
  destruct (C6_metadata_only Z Reference.MarkdownIt Reference.MarkdownIt_new
              Reference.MarkdownIt_render Reference.JSON_stringify Reference.Frontmatter
              Reference.parse Reference.toString Reference.root_toString Reference.parseDOM
              Reference.getInnerHTML Reference.getOuterHTML Reference.transformSync
              Reference.compileTemplate
              {| mode := Some []; markdown := None; markdownIt := None |}
              Reference.titled "a.md"
              {| attributes := JObj [("title", JStr "Hello")]; body := "Hi" |}
              ("<p>Hi</p>" ++ newline))
    as (text & Ht & Htext & _).
  - right. reflexivity.
  - reflexivity.
  - discriminate.
  - reflexivity.
  - simpl. intuition discriminate.
  - unfold Reference.transform. rewrite Ht, Htext. reflexivity.
Defined.

(** C6 as stated fails on a document whose frontmatter block is the YAML
    string [1], line break, [export const html = 2]: a string value is
    written as it is (line 40), so with [mode] empty the text holds a second
    statement, [export const html = 2]. *)
Lemma C6_string_frontmatter :
  Reference.Frontmatter Reference.scalar
  = Ok {| attributes := JStr ("1" ++ newline ++ "export const html = 2"); body := "Hi" |} /\
  Reference.transform
    {| mode := Some []; markdown := None; markdownIt := None |}
    Reference.scalar "a.md"
  = Ok (newline ++ "export const attributes = 1" ++
        newline ++ "export const html = 2" ++ newline).
Proof. split; reflexivity. Qed.

Lemma C9_attributes_export_witness :
  exists text,
    Reference.transform
      {| mode := Some [HTML; VUE]; markdown := None; markdownIt := None |}
      Reference.titled "a.md" = Ok text /\
    exists context rest,
      text = context ++ newline ++ "export const attributes = " ++
             Reference.JSON_stringify (JObj [("title", JStr "Hello")]) ++ newline ++ rest.
Proof.
  eexists. split; [vm_compute; reflexivity|].
  apply (C9_attributes_export Z Reference.MarkdownIt
           Reference.MarkdownIt_new Reference.MarkdownIt_render
           Reference.JSON_stringify Reference.Frontmatter Reference.parse
           Reference.toString Reference.root_toString Reference.parseDOM
           Reference.getInnerHTML Reference.getOuterHTML Reference.transformSync
           Reference.compileTemplate
           {| mode := Some [HTML; VUE]; markdown := None; markdownIt := None |}
           Reference.titled "a.md" _
           {| attributes := JObj [("title", JStr "Hello")]; body := "Hi" |});
    reflexivity.
Defined.

(** * Further properties of the code *)

(** ** Paths the plugin applies to *)

Lemma length_append (a b : string) :
  String.length (a ++ b) = String.length a + String.length b.
Proof. induction a as [|x a IH]; simpl; [reflexivity | now rewrite IH]. Qed.

Lemma drop_length_append (a b : string) : drop (String.length a) (a ++ b) = b.
Proof. induction a as [|x a IH]; simpl; [now destruct b | exact IH]. Qed.

Lemma drop_split (n : nat) :
  forall s, n <= String.length s -> exists stem, s = stem ++ drop n s.
Proof.
  induction n as [|n IH]; intros s Hn.
  - exists EmptyString. now destruct s.
  - destruct s as [|c s]; simpl in Hn; [lia|].
    destruct (IH s) as [stem Hs]; [lia|].
    exists (String c stem). simpl. now rewrite <- Hs.
Qed.

Lemma endsWith_iff (suffix s : string) :
  endsWith suffix s = true <-> exists stem, s = stem ++ suffix.
Proof.
  unfold endsWith. rewrite andb_true_iff, Nat.leb_le, String.eqb_eq. split.
  - intros [Hl Hd].
    destruct (drop_split (String.length s - String.length suffix) s) as [stem Hs]; [lia|].
    exists stem. now rewrite Hd in Hs.
  - intros [stem ->]. rewrite length_append. split; [lia|].
    replace (String.length stem + String.length suffix - String.length suffix)
      with (String.length stem) by lia.
    apply drop_length_append.
Qed.

(** X1. The transform applies to a path exactly when the path is some text
    (possibly empty) followed by [.md]; the comparison is case sensitive and
    looks at nothing but the end of the path. *)
Theorem X1_test_md_suffix (path : string) :
  (testPath path = true <-> exists stem, path = stem ++ ".md") /\
  testPath ".md" = true /\
  testPath "a.MD" = false /\
  testPath "a.md.bak" = false.
Proof.
  split; [apply endsWith_iff|]. repeat split.
Qed.

(** ** The React pass: shape, invariants of the output, other attributes *)

Section ReactPassMore.
Import DomHandler React.

Variable getInnerHTML : Node -> string.

Local Notation mark := (markCodeAsPre getInnerHTML).

Lemma visited_markCodeAsPre_eq (p : list nat) :
  forall n, visited p (mark n) = option_map mark (visited p n).
Proof.
  induction p as [|i p IH]; intros n; [reflexivity|].
  destruct n as [t a c| | | |]; try reflexivity.
  destruct (t =? "code") eqn:E.
  - apply String.eqb_eq in E. subst t. reflexivity.
  - rewrite (markCodeAsPre_other getInnerHTML _ _ _ E). simpl. rewrite E.
    rewrite nth_error_map.
    destruct (nth_error c i) as [x|]; simpl; [apply IH | reflexivity].
Qed.

Lemma visited_of_root_markCodeAsPre_eq (root : list Node) (p : list nat) :
  visited_of_root p (map mark root) = option_map mark (visited_of_root p root).
Proof.
  destruct p as [|i p]; [reflexivity|].
  simpl. rewrite nth_error_map.
  destruct (nth_error root i) as [x|]; simpl;
    [apply visited_markCodeAsPre_eq | reflexivity].
Qed.

(** X2. The pass keeps the shape of the tree wherever it goes: a path that
    stays outside [code] elements leads to a node in the output exactly when
    it leads to one in the input, and the node it finds in the output is the
    result of the pass on the node it finds in the input. So the pass adds no
    node, and removes none except below a [code] element. *)
Theorem X2_react_shape (root : list Node) (p : list nat) :
  visited_of_root p (map mark root) = option_map mark (visited_of_root p root) /\
  List.length (map mark root) = List.length root.
Proof. split; [apply visited_of_root_markCodeAsPre_eq | apply length_map]. Qed.

Lemma renameClass_not_truthy (t : string) (a : props) :
  includes ["pre"; "code"] t = true -> truthy (get "class" (renameClass t a)) = false.
Proof.
  intros Ht. unfold renameClass. rewrite Ht. cbn [andb].
  destruct (truthy (get "class" a)) eqn:E; [|exact E].
  destruct (get "class" a) as [v|]; [|discriminate].
  now rewrite get_delete_same.
Qed.

Lemma renameClass_other_keys (t k : string) (a : props) :
  k <> "class" -> k <> "className" -> get k (renameClass t a) = get k a.
Proof.
  intros H1 H2. unfold renameClass.
  destruct (includes ["pre"; "code"] t && truthy (get "class" a)); [|reflexivity].
  destruct (get "class" a) as [v|]; [|reflexivity].
  rewrite get_delete_other by assumption. now apply get_set_other.
Qed.

Lemma markCodeAsPre_element (t : string) (a : props) (c : list Node) :
  exists a' c',
    mark (Element t a c) = Element t a' c' /\
    (forall k, k <> "class" -> k <> "className" -> k <> "dangerouslySetInnerHTML" ->
       get k a' = get k a) /\
    (includes ["pre"; "code"] t = true -> truthy (get "class" a') = false) /\
    (t = "code" -> c' = [] /\ exists v, get "dangerouslySetInnerHTML" a' = Some v) /\
    (t <> "code" -> List.length c' = List.length c).
Proof.
  destruct (t =? "code") eqn:E.
  - apply String.eqb_eq in E. subst t. rewrite markCodeAsPre_code.
    eexists _, _. split; [reflexivity|]. split; [|split; [|split]].
    + intros k H1 H2 H3. rewrite get_set_other by assumption.
      now apply renameClass_other_keys.
    + intros Ht. rewrite get_set_other by discriminate.
      now apply renameClass_not_truthy.
    + intros _. split; [reflexivity|]. eexists. apply get_set_same.
    + intros Hne. now destruct Hne.
  - rewrite (markCodeAsPre_other getInnerHTML _ _ _ E).
    apply String.eqb_neq in E.
    eexists _, _. split; [reflexivity|]. split; [|split; [|split]].
    + intros k H1 H2 _. now apply renameClass_other_keys.
    + apply renameClass_not_truthy.
    + intros Heq. now destruct E.
    + intros _. apply length_map.
Qed.

(** X3. In the tree the pass returns, every element it went through that is
    a [code] element has no children and carries a [dangerouslySetInnerHTML]
    attribute, and every [pre] or [code] element it went through has no
    [class] attribute with a non-empty value. *)
Theorem X3_react_output_invariant (root : list Node) (p : list nat)
    (t : string) (a : props) (c : list Node) :
  visited_of_root p (map mark root) = Some (Element t a c) ->
  (t = "code" -> c = [] /\ exists v, get "dangerouslySetInnerHTML" a = Some v) /\
  (includes ["pre"; "code"] t = true -> truthy (get "class" a) = false).
Proof.
  rewrite visited_of_root_markCodeAsPre_eq.
  destruct (visited_of_root p root) as [m|]; [|discriminate].
  simpl. destruct m as [t0 a0 c0| | | |]; try discriminate.
  destruct (markCodeAsPre_element t0 a0 c0) as (a' & c' & -> & _ & Hcls & Hcode & _).
  intros [= <- <- <-]. split; assumption.
Qed.

(** X4. The pass touches three attributes only: for every element it
    reaches, any attribute other than [class], [className] and
    [dangerouslySetInnerHTML] has in the output element at the same place
    the value it had (or is absent as it was), and the tag is the same. An
    element other than [code] keeps the number of its children. *)
Theorem X4_react_other_attributes (root : list Node) (p : list nat)
    (t : string) (a : props) (c : list Node) :
  visited_of_root p root = Some (Element t a c) ->
  exists a' c',
    visited_of_root p (map mark root) = Some (Element t a' c') /\
    (forall k, k <> "class" -> k <> "className" -> k <> "dangerouslySetInnerHTML" ->
       get k a' = get k a) /\
    (t <> "code" -> List.length c' = List.length c).
Proof.
  intros H. rewrite visited_of_root_markCodeAsPre_eq, H.
  change (option_map mark (Some (Element t a c))) with (Some (mark (Element t a c))).
  destruct (markCodeAsPre_element t a c) as (a' & c' & E & Hk & _ & _ & Hlen).
  exists a', c'. rewrite E. repeat split; assumption.
Qed.

End ReactPassMore.

Lemma X3_react_output_invariant_witness :
  ([] : list DomHandler.Node) = [] /\
  (exists v,
     get "dangerouslySetInnerHTML"
       [("title", "t"); ("className", "lang-js");
        ("dangerouslySetInnerHTML", "vfm{{ __html: `x`}}vfm")] = Some v) /\
  truthy (get "class"
            [("title", "t"); ("className", "lang-js");
             ("dangerouslySetInnerHTML", "vfm{{ __html: `x`}}vfm")]) = false.
Proof.
  destruct (X3_react_output_invariant Reference.getInnerHTML
              [DomHandler.Element "pre" [("class", "hl"); ("id", "a")]
                 [DomHandler.Element "code" [("class", "lang-js"); ("title", "t")]
                    [DomHandler.Text "x"]]]
              [0; 0] "code"
              [("title", "t"); ("className", "lang-js");
               ("dangerouslySetInnerHTML", "vfm{{ __html: `x`}}vfm")] [] eq_refl)
    as [Hcode Hcls].
  destruct (Hcode eq_refl) as [Hc Hv].
  split; [exact Hc|]. split; [exact Hv | exact (Hcls eq_refl)].
Defined.

Lemma X4_react_other_attributes_witness :
  exists a' c',
    React.visited_of_root [0]
      (map (React.markCodeAsPre Reference.getInnerHTML)
         [DomHandler.Element "pre" [("class", "hl"); ("id", "a")]
            [DomHandler.Element "code" [("class", "lang-js"); ("title", "t")]
               [DomHandler.Text "x"]]])
    = Some (DomHandler.Element "pre" a' c') /\
    get "id" a' = Some "a" /\ List.length c' = 1.
Proof.
  destruct (X4_react_other_attributes Reference.getInnerHTML
              [DomHandler.Element "pre" [("class", "hl"); ("id", "a")]
                 [DomHandler.Element "code" [("class", "lang-js"); ("title", "t")]
                    [DomHandler.Text "x"]]]
              [0] "pre" [("class", "hl"); ("id", "a")]
              [DomHandler.Element "code" [("class", "lang-js"); ("title", "t")]
                 [DomHandler.Text "x"]] eq_refl)
    as (a' & c' & Hv & Hk & Hlen).
  exists a', c'. split; [exact Hv|]. split.
  - rewrite Hk; [reflexivity | discriminate | discriminate | discriminate].
  - apply Hlen. discriminate.
Defined.

(** ** Stripping the markers (line 102) *)

Lemma prefix_split (p : string) :
  forall s, prefix p s = true -> exists r, s = p ++ r.
Proof.
  induction p as [|a p IH]; intros s H.
  - exists s. reflexivity.
  - destruct s as [|b s]; simpl in H; [discriminate|].
    destruct (ascii_dec a b) as [->|]; [|discriminate].
    destruct (IH s H) as [r ->]. now exists r.
Qed.

Lemma replaceAll_absent (pat rep : string) :
  forall s, (forall a b, s <> a ++ pat ++ b) -> replaceAll pat rep s = s.
Proof.
  induction s as [|c s IH]; intros Hs; [reflexivity|].
  rewrite replaceAll_other.
  - rewrite IH; [reflexivity|].
    intros a b ->. now apply (Hs (String c a) b).
  - destruct (prefix pat (String c s)) eqn:E; [|reflexivity].
    apply prefix_split in E as [r E]. now destruct (Hs EmptyString r).
Qed.

(** X5. A serialization in which neither of the two marker tokens occurs
    comes out of the marker strip unchanged. *)
Theorem X5_strip_without_markers (s : string) :
  (forall a b, s <> a ++ React.marker_open ++ b) ->
  (forall a b, s <> a ++ React.marker_close ++ b) ->
  React.stripMarkers s = s.
Proof.
  intros Ho Hc. unfold React.stripMarkers.
  rewrite (replaceAll_absent _ _ s Ho). now apply replaceAll_absent.
Qed.

Lemma X5_strip_without_markers_witness : React.stripMarkers "<p>" = "<p>".
Proof.
  apply X5_strip_without_markers; intros a b H;
    repeat (destruct a as [|? a]; simpl in H; try discriminate H;
            injection H as _ H).
Defined.

Section FirstQuote.

(** The character [q] does not occur in [s]. *)
Variable q : ascii.
Local Notation free s := (~ In q (list_ascii_of_string s)).

Lemma list_ascii_of_append (a b : string) :
  list_ascii_of_string (a ++ b) = (list_ascii_of_string a ++ list_ascii_of_string b)%list.
Proof. induction a as [|x a IH]; simpl; [reflexivity | now rewrite IH]. Qed.

Lemma free_append (a b : string) : free a -> free b -> free (a ++ b).
Proof.
  intros Ha Hb. rewrite list_ascii_of_append, in_app_iff. tauto.
Qed.

(** A string is cut at its first [q] in one way only. *)
Lemma first_occurrence_unique (a : string) :
  forall a' b b', free a -> free a' ->
    a ++ String q b = a' ++ String q b' -> a = a'.
Proof.
  induction a as [|x a IH]; intros [|x' a'] b b' Ha Ha' H; simpl in *.
  - reflexivity.
  - injection H as -> _. tauto.
  - injection H as -> _. tauto.
  - injection H as -> H. f_equal. apply (IH a' b b'); tauto.
Qed.

Lemma replaceAll_free_head (u rep : string) :
  forall s, free s -> replaceAll (String q u) rep s = s.
Proof.
  induction s as [|c s IH]; intros Hs; [reflexivity|].
  simpl in Hs. rewrite replaceAll_other.
  - rewrite IH; tauto.
  - simpl. destruct (ascii_dec q c) as [->|]; [tauto | reflexivity].
Qed.

(** A pattern that starts with [q] and goes on does not match at a final
    [q]. *)
Lemma replaceAll_head_at_end (a : ascii) (u rep : string) :
  forall s, free s ->
    replaceAll (String q (String a u)) rep (s ++ String q EmptyString)
    = s ++ String q EmptyString.
Proof.
  induction s as [|c s IH]; intros Hs.
  - simpl. rewrite replaceAll_other; [reflexivity|].
    simpl. now destruct (ascii_dec q q).
  - simpl in Hs. simpl append. rewrite replaceAll_other.
    + rewrite IH; tauto.
    + simpl. destruct (ascii_dec q c) as [->|]; [tauto | reflexivity].
Qed.

(** A pattern that ends with its only [q] matches a text that ends with its
    only [q] at the end and nowhere else. *)
Lemma replaceAll_tail_at_end (a : ascii) (u rep : string) :
  free (String a u) ->
  forall s, free s ->
    replaceAll (String a u ++ String q EmptyString) rep
               (s ++ String a u ++ String q EmptyString)
    = s ++ rep.
Proof.
  intros Hu. induction s as [|c s IH]; intros Hs.
  - pose proof (replaceAll_match a (u ++ String q EmptyString) rep EmptyString) as H.
    rewrite replaceAll_empty, !append_nil_r in H. exact H.
  - simpl in Hs. simpl append at 2. rewrite replaceAll_other.
    + change (String c s ++ rep) with (String c (s ++ rep)).
      f_equal. apply IH. tauto.
    + destruct (prefix _ _) eqn:E; [|reflexivity].
      apply prefix_split in E as [r E].
      assert (E' : (String c s ++ String a u) ++ String q EmptyString
                   = String a u ++ String q r).
      { rewrite append_assoc. simpl. rewrite append_assoc in E. exact E. }
      apply first_occurrence_unique in E'.
      * apply (f_equal String.length) in E'. rewrite length_append in E'.
        simpl in E'. lia.
      * apply free_append; [simpl; tauto | exact Hu].
      * exact Hu.
Qed.

End FirstQuote.

(** X6. For code content without a double quote, the attribute value
    written on line 91, between the quotes the serializer puts around it,
    comes out of the marker strip as the expression [{{ __html: `...`}}] with
    the content in it character for character: the quotes and both markers
    are gone and nothing else is changed. *)
Theorem X6_strip_injection (codeContent : string) :
  ~ In (ascii_of_nat 34) (list_ascii_of_string codeContent) ->
  React.stripMarkers (quote ++ React.injection codeContent ++ quote)
  = "{{ __html: " ++ backtick ++ codeContent ++ backtick ++ "}}".
Proof.
  intros Hx.
  set (q := ascii_of_nat 34) in *.
  assert (Hin : ~ In q (list_ascii_of_string (" __html: `" ++ codeContent ++ "`}}vfm"))).
  { apply free_append; [simpl; intuition discriminate|].
    apply free_append; [exact Hx | simpl; intuition discriminate]. }
  assert (Hhead : ~ In q (list_ascii_of_string ("{{ __html: `" ++ codeContent ++ "`"))).
  { apply free_append; [simpl; intuition discriminate|].
    apply free_append; [exact Hx | simpl; intuition discriminate]. }
  assert (E1 : quote ++ React.injection codeContent ++ quote
               = React.marker_open ++
                 (" __html: `" ++ codeContent ++ "`}}vfm") ++ String q EmptyString).
  { unfold React.injection, React.marker_open, quote, backtick. simpl.
    rewrite !append_assoc. reflexivity. }
  unfold React.stripMarkers. rewrite E1.
  change React.marker_open with (String q "vfm{{").
  rewrite replaceAll_match.
  rewrite (replaceAll_head_at_end q "v" "fm{{" "{{" _ Hin).
  assert (E2 : "{{" ++ (" __html: `" ++ codeContent ++ "`}}vfm") ++ String q EmptyString
               = ("{{ __html: `" ++ codeContent ++ "`") ++ "}}vfm" ++ String q EmptyString).
  { simpl. rewrite !append_assoc. reflexivity. }
  rewrite E2.
  change React.marker_close with ("}}vfm" ++ String q EmptyString).
  rewrite (replaceAll_tail_at_end q "}" "}vfm" "}}"); [| simpl; intuition discriminate | exact Hhead].
  unfold backtick. simpl. rewrite !append_assoc. reflexivity.
Qed.

Lemma X6_strip_injection_witness :
  React.stripMarkers (quote ++ React.injection "x&lt;1" ++ quote)
  = "{{ __html: `x&lt;1`}}".
Proof.
  apply (X6_strip_injection "x&lt;1"). simpl. intuition discriminate.
Defined.

(** ** Replacing the first match, and the name of the Vue render function *)

Lemma replace_unfold (pat rep s : string) :
  replace pat rep s =
  if prefix pat s then rep ++ drop (String.length pat) s
  else match s with
       | EmptyString => EmptyString
       | String c s' => String c (replace pat rep s')
       end.
Proof. destruct s; reflexivity. Qed.

Lemma append_prefix_split (p : string) :
  forall x r1 r, x ++ r1 = p ++ r -> String.length p <= String.length x ->
    exists b, x = p ++ b.
Proof.
  induction p as [|a p IH]; intros x r1 r H Hl.
  - now exists x.
  - destruct x as [|a' x]; simpl in Hl; [lia|].
    simpl in H. injection H as -> H.
    destruct (IH x r1 r H) as [b ->]; [lia|]. now exists b.
Qed.

Lemma replace_absent (pat rep : string) :
  forall s, (forall a b, s <> a ++ pat ++ b) -> replace pat rep s = s.
Proof.
  induction s as [|c s IH]; intros Hs; rewrite replace_unfold.
  - destruct (prefix pat EmptyString) eqn:E; [|reflexivity].
    apply prefix_split in E as [r E]. now destruct (Hs EmptyString r).
  - destruct (prefix pat (String c s)) eqn:E.
    + apply prefix_split in E as [r E]. now destruct (Hs EmptyString r).
    + rewrite IH; [reflexivity|]. intros a b ->. now apply (Hs (String c a) b).
Qed.

Lemma replace_first (pat rep : string) :
  forall pre rest,
    (forall a b, b <> EmptyString -> pre ++ pat <> a ++ pat ++ b) ->
    replace pat rep (pre ++ pat ++ rest) = pre ++ rep ++ rest.
Proof.
  induction pre as [|c pre IH]; intros rest H; rewrite replace_unfold.
  - simpl append. now rewrite prefix_append, drop_length_append.
  - destruct (prefix pat (String c pre ++ pat ++ rest)) eqn:E.
    + apply prefix_split in E as [r E].
      rewrite <- append_assoc in E.
      apply append_prefix_split in E as [b E].
      * destruct (H EmptyString b); [|exact E].
        intros ->. apply (f_equal String.length) in E.
        rewrite !length_append in E. simpl in E. lia.
      * rewrite length_append. lia.
    + simpl. f_equal. apply IH.
      intros a b Hb Heq. apply (H (String c a) b Hb). simpl. now rewrite Heq.
Qed.

(** X7. The rename of the compiled render function: when the compiler's
    code holds [export function render(] at the start of a line (after a
    line break), the first such place, and only it, becomes
    [function vueRender(], everything before and after it staying as it is;
    when the code holds no such place (also when it begins with
    [export function render(] without a line break before it), the code is
    left unchanged. *)
Theorem X7_vue_render_rename :
  (forall pre rest,
     (forall a b, b <> EmptyString ->
        pre ++ newline ++ "export function render("
        <> a ++ (newline ++ "export function render(") ++ b) ->
     Vue.vueCode (pre ++ (newline ++ "export function render(") ++ rest)
     = pre ++ (newline ++ "function vueRender(") ++ rest) /\
  (forall s,
     (forall a b, s <> a ++ (newline ++ "export function render(") ++ b) ->
     Vue.vueCode s = s) /\
  Vue.vueCode "export function render(_ctx) {}" = "export function render(_ctx) {}".
Proof.
  split; [|split].
  - intros pre rest H. apply replace_first. exact H.
  - intros s H. apply replace_absent. exact H.
  - reflexivity.
Qed.

Lemma X7_vue_render_rename_witness :
  Vue.vueCode ("import V" ++ (newline ++ "export function render(") ++ "_ctx) {}" ++
               newline ++ "export function render(x)")
  = "import V" ++ (newline ++ "function vueRender(") ++ "_ctx) {}" ++
    newline ++ "export function render(x)".
Proof.
  destruct X7_vue_render_rename as [Hfirst _].
  apply (Hfirst "import V").
  intros a b Hb H. simpl in H.
  repeat (destruct a as [|? a]; [discriminate H | injection H as _ H]).
  apply (f_equal String.length) in H. rewrite !length_append in H.
  destruct b; [now apply Hb | simpl in H; lia].
Defined.

(** ** The Vue pass run again *)

Section VueAgain.
Import NodeHtmlParser Vue.

(** Induction over a tree, with the property known for all children. *)
Lemma Node_forall_ind (P : Node -> Prop) :
  (forall t a c, Forall P c -> P (HTMLElement t a c)) ->
  (forall raw, P (TextNode raw)) ->
  (forall raw, P (CommentNode raw)) ->
  forall n, P n.
Proof.
  intros He Ht Hc. fix IH 1. intros [t a c|raw|raw].
  - apply He. induction c as [|x c IHc]; constructor; [apply IH | exact IHc].
  - apply Ht.
  - apply Hc.
Qed.

Lemma markCodeAsPre_idempotent (n : Node) :
  markCodeAsPre (markCodeAsPre n) = markCodeAsPre n.
Proof.
  induction n as [t a c IH|raw|raw] using Node_forall_ind; try reflexivity.
  simpl. f_equal.
  - destruct (t =? "code"); [apply set_set_same | reflexivity].
  - rewrite map_map. apply map_ext_Forall. exact IH.
Qed.

(** X8. Running the Vue pass on its own output changes nothing: an element
    that already carries [v-pre="true"] is not given a second attribute, and
    nothing else is touched. *)
Theorem X8_vue_adapt_idempotent (root : list Node) :
  adapt (adapt root) = adapt root.
Proof.
  unfold adapt. rewrite !map_map. apply map_ext. intros n.
  destruct n as [t a c|raw|raw]; try reflexivity.
  rewrite markCodeAsPre_markTopLevel.
  set (a1 := if (t =? "code") || (t =? "pre") then set "v-pre" "true" a else a).
  rewrite markCodeAsPre_markTopLevel. f_equal.
  - subst a1. destruct ((t =? "code") || (t =? "pre")); [apply set_set_same | reflexivity].
  - rewrite map_map. apply map_ext. apply markCodeAsPre_idempotent.
Qed.

End VueAgain.

(** ** The transform as a whole *)

Section TransformMore.

Variable number : Type.
Variable MarkdownIt : Type.
Variable MarkdownIt_new : MarkdownItOptions -> MarkdownIt.
Variable MarkdownIt_render : MarkdownIt -> string -> result string.
Variable JSON_stringify : value number -> string.
Variable Frontmatter : string -> result (FrontMatterResult number).
Variable parse : option NodeHtmlParser.ParseOptions -> string -> list NodeHtmlParser.Node.
Variable toString : NodeHtmlParser.Node -> string.
Variable root_toString : list NodeHtmlParser.Node -> string.
Variable parseDOM : string -> list DomHandler.Node.
Variable getInnerHTML : DomHandler.Node -> string.
Variable getOuterHTML : list DomHandler.Node -> string.
Variable transformSync : string -> result string.
Variable compileTemplate : string -> string -> result string.

Local Notation go :=
  (transform MarkdownIt_new MarkdownIt_render JSON_stringify Frontmatter
             parse toString root_toString parseDOM getInnerHTML getOuterHTML
             transformSync compileTemplate).
Local Notation rendered options fm :=
  (render MarkdownIt_render (markdownCompiler MarkdownIt_new options) (body fm)).
Local Notation wants options m := (is_true (mode_includes options m)).
Local Notation statement := (exportStatement JSON_stringify).
(** What is given to Babel and to the Vue compiler for [html]. *)
Local Notation babelInput html :=
  (React.reactCode (React.markup getInnerHTML getOuterHTML (parseDOM html))).
Local Notation vueInput html :=
  (root_toString (Vue.adapt (parse (Some vueParseOptions) html))).
(** The module text for the frontmatter [fm], the rendered [html] and the
    code [rc] and [vc] of the two compilers. *)
Local Notation moduleText options fm html rc vc :=
  (((if wants options REACT then React.importReact ++ newline else EmptyString) ++
    (if wants options VUE then contextStatement (Some (Vue.vueCode vc)) else EmptyString))
   ++ newline ++
   statement "attributes" (attributes fm) ++
   (if wants options HTML
    then statement "html" (JStr (JSON_stringify (JStr html))) else EmptyString) ++
   (if wants options TOC
    then statement "toc" (Outline.toc_value (Outline.toc toString (parse None html)))
    else EmptyString) ++
   (if wants options REACT
    then statement "ReactComponent" (JStr (React.compiledReactCode rc)) else EmptyString) ++
   (if wants options VUE
    then statement "VueComponent" (JStr "{ render: vueRender }") else EmptyString)).

(** The same text written out: each statement is [export const], the key,
    [=], the value's text and a line break. *)
Local Notation written v :=
  (match v with
   | JStr s => s
   | _ => JSON_stringify v
   end).
Local Notation moduleSource options fm html rc vc :=
  (((if wants options REACT then React.importReact ++ newline else EmptyString) ++
    (if wants options VUE
     then (if negb (Vue.vueCode vc =? EmptyString)
           then Vue.vueCode vc ++ newline else EmptyString)
     else EmptyString))
   ++ newline ++
   ("export const attributes = " ++ written (attributes fm) ++ newline) ++
   (if wants options HTML
    then "export const html = " ++ JSON_stringify (JStr html) ++ newline
    else EmptyString) ++
   (if wants options TOC
    then "export const toc = " ++
         JSON_stringify (Outline.toc_value (Outline.toc toString (parse None html))) ++
         newline
    else EmptyString) ++
   (if wants options REACT
    then "export const ReactComponent = " ++ React.compiledReactCode rc ++ newline
    else EmptyString) ++
   (if wants options VUE
    then "export const VueComponent = { render: vueRender }" ++ newline
    else EmptyString)).

Lemma contextStatement_importReact :
  contextStatement (Some React.importReact) = React.importReact ++ newline.
Proof. reflexivity. Qed.

(** The transform, step by step, when every call it makes returns. *)
Lemma transform_returns (options : PluginOptions MarkdownIt) (code path : string)
    (fm : FrontMatterResult number) (html rc vc : string) :
  Frontmatter code = Ok fm ->
  rendered options fm = Ok html ->
  (wants options REACT = true -> transformSync (babelInput html) = Ok rc) ->
  (wants options VUE = true -> compileTemplate (vueInput html) path = Ok vc) ->
  go options code path = Ok (moduleText options fm html rc vc).
Proof.
  intros Hfm Hr Hb Hv. unfold transform. rewrite Hfm. cbn [bind]. rewrite Hr. cbn [bind].
  unfold addHtml, addToc, addReact, addVue.
  destruct (wants options REACT);
    [rewrite (Hb eq_refl); cbn [bind] | clear Hb];
    (destruct (wants options VUE); [rewrite (Hv eq_refl); cbn [bind] | clear Hv]);
    destruct (wants options HTML), (wants options TOC);
    cbn [bind]; unfold export;
    cbn [join exports contextCode addProperty new_ExportedContent];
    rewrite ?contextStatement_importReact;
    cbn [contextStatement append];
    repeat rewrite ?append_assoc, ?append_nil_r;
    reflexivity.
Qed.

(** A returned text means every call that was made returned. *)
Lemma transform_calls (options : PluginOptions MarkdownIt) (code path text : string) :
  go options code path = Ok text ->
  exists fm html rc vc,
    Frontmatter code = Ok fm /\
    rendered options fm = Ok html /\
    (wants options REACT = true -> transformSync (babelInput html) = Ok rc) /\
    (wants options VUE = true -> compileTemplate (vueInput html) path = Ok vc).
Proof.
  unfold transform.
  destruct (Frontmatter code) as [fm|e]; cbn [bind]; [|discriminate].
  destruct (rendered options fm) as [html|e] eqn:Hr; cbn [bind]; [|discriminate].
  unfold addReact, addVue.
  destruct (wants options REACT).
  - destruct (transformSync (babelInput html)) as [rc|e] eqn:Hb; cbn [bind]; [|discriminate].
    destruct (wants options VUE).
    + destruct (compileTemplate (vueInput html) path) as [vc|e] eqn:Hv;
        cbn [bind]; [|discriminate].
      intros _. exists fm, html, rc, vc. auto.
    + intros _. exists fm, html, rc, EmptyString. repeat split; auto; discriminate.
  - cbn [bind]. destruct (wants options VUE).
    + destruct (compileTemplate (vueInput html) path) as [vc|e] eqn:Hv;
        cbn [bind]; [|discriminate].
      intros _. exists fm, html, EmptyString, vc. repeat split; auto; discriminate.
    + intros _. exists fm, html, EmptyString, EmptyString.
      repeat split; auto; discriminate.
Qed.

(** X9. The transform returns a text exactly when the frontmatter is read,
    the body is rendered and the compilers of the requested frameworks
    accept their input; the text is then the context code (the React import,
    then the renamed Vue render function), a line break, and the export
    statements in the fixed order [attributes], [html], [toc],
    [ReactComponent], [VueComponent], each present exactly when [mode]
    holds its kind, whatever the order of [mode]. *)
Theorem X9_transform_text (options : PluginOptions MarkdownIt) (code path text : string) :
  go options code path = Ok text <->
  exists fm html rc vc,
    Frontmatter code = Ok fm /\
    rendered options fm = Ok html /\
    (wants options REACT = true -> transformSync (babelInput html) = Ok rc) /\
    (wants options VUE = true -> compileTemplate (vueInput html) path = Ok vc) /\
    text = moduleSource options fm html rc vc.
Proof.
  change (go options code path = Ok text <->
          exists fm html rc vc,
            Frontmatter code = Ok fm /\
            rendered options fm = Ok html /\
            (wants options REACT = true -> transformSync (babelInput html) = Ok rc) /\
            (wants options VUE = true -> compileTemplate (vueInput html) path = Ok vc) /\
            text = moduleText options fm html rc vc).
  split.
  - intros H. destruct (transform_calls _ _ _ _ H) as (fm & html & rc & vc & Hfm & Hr & Hb & Hv).
    exists fm, html, rc, vc. repeat split; try assumption.
    rewrite (transform_returns _ _ _ _ _ _ _ Hfm Hr Hb Hv) in H. now injection H.
  - intros (fm & html & rc & vc & Hfm & Hr & Hb & Hv & ->).
    now apply transform_returns.
Qed.

(** X10. When the frontmatter is read and rendering the body throws, be it
    markdown-it or the custom function, the transform throws that error. *)
Theorem X10_render_error (options : PluginOptions MarkdownIt) (code path : string)
    (fm : FrontMatterResult number) (e : exn) :
  Frontmatter code = Ok fm ->
  rendered options fm = Throw e ->
  go options code path = Throw e.
Proof. intros Hfm Hr. unfold transform. rewrite Hfm. cbn [bind]. now rewrite Hr. Qed.

(** X11. With REACT in [mode], an error thrown by Babel is the error of the
    transform, whether or not VUE is requested as well: the Vue compiler's
    answer plays no part. With VUE in [mode], an error thrown by the Vue
    compiler is the error of the transform when the React step, if there is
    one, went through. *)
Theorem X11_compiler_errors (options : PluginOptions MarkdownIt) (code path : string)
    (fm : FrontMatterResult number) (html : string) (e : exn) :
  Frontmatter code = Ok fm ->
  rendered options fm = Ok html ->
  (wants options REACT = true ->
   transformSync (babelInput html) = Throw e ->
   go options code path = Throw e) /\
  (wants options VUE = true ->
   (wants options REACT = true -> exists rc, transformSync (babelInput html) = Ok rc) ->
   compileTemplate (vueInput html) path = Throw e ->
   go options code path = Throw e).
Proof.
  intros Hfm Hr. unfold transform. rewrite Hfm. cbn [bind]. rewrite Hr. cbn [bind].
  unfold addReact, addVue. split.
  - intros -> ->. reflexivity.
  - intros -> Hb Hv.
    destruct (wants options REACT).
    + destruct (Hb eq_refl) as [rc ->]. cbn [bind]. now rewrite Hv.
    + cbn [bind]. now rewrite Hv.
Qed.

Lemma existsb_same_members (f : Mode -> bool) (ms1 ms2 : list Mode) :
  (forall m, In m ms1 <-> In m ms2) -> existsb f ms1 = existsb f ms2.
Proof.
  intros H. destruct (existsb f ms1) eqn:E1, (existsb f ms2) eqn:E2; try reflexivity.
  - apply existsb_exists in E1 as (x & Hx & Hf).
    rewrite <- E2. symmetry. apply existsb_exists. exists x. split; [now apply H | exact Hf].
  - apply existsb_exists in E2 as (x & Hx & Hf).
    rewrite <- E1. apply existsb_exists. exists x. split; [now apply H | exact Hf].
Qed.

(** X12. Only which kinds [mode] holds matters: two option objects with the
    same renderer settings whose [mode] arrays hold the same kinds, in any
    order and any number of times, give the same result for every
    document. *)
Theorem X12_mode_is_a_set (markdown0 : option (string -> result string))
    (markdownIt0 : option (MarkdownItArg MarkdownIt)) (ms1 ms2 : list Mode)
    (code path : string) :
  (forall m, In m ms1 <-> In m ms2) ->
  go {| mode := Some ms1; markdown := markdown0; markdownIt := markdownIt0 |} code path
  = go {| mode := Some ms2; markdown := markdown0; markdownIt := markdownIt0 |} code path.
Proof.
  intros H.
  unfold transform, markdownCompiler, addHtml, addToc, addReact, addVue, mode_includes.
  cbn [mode markdown markdownIt].
  now rewrite !(existsb_same_members _ ms1 ms2 H).
Qed.

(** X13. The plugin called without options has one transform; it applies
    to the paths ending in [.md], renders with markdown-it constructed from
    [html: true] and an undefined [xhtmlOut], and returns, when frontmatter
    and rendering go through, the [attributes] export alone. *)
Theorem X13_plugin_without_options :
  exists t,
    module_exports MarkdownIt_new MarkdownIt_render JSON_stringify Frontmatter
      parse toString root_toString parseDOM getInnerHTML getOuterHTML
      transformSync compileTemplate None = [t] /\
    (forall path, test t path = true <-> exists stem, path = stem ++ ".md") /\
    (forall code path text,
       run t code path = Ok text <->
       exists fm html,
         Frontmatter code = Ok fm /\
         MarkdownIt_render (MarkdownIt_new (html_xhtmlOut (Some true) None)) (body fm)
           = Ok html /\
         text = newline ++ "export const attributes = " ++
                written (attributes fm) ++ newline).
Proof.
  eexists. split; [reflexivity|]. split.
  - intros path. apply endsWith_iff.
  - intros code path text. cbn [run transformFor]. split.
    + intros H.
      destruct (transform_calls _ _ _ _ H) as (fm & html & rc & vc & Hfm & Hr & Hb & Hv).
      exists fm, html. split; [exact Hfm|]. split; [exact Hr|].
      rewrite (transform_returns _ _ _ _ _ _ _ Hfm Hr Hb Hv) in H.
      injection H as <-. cbn. now rewrite append_nil_r.
    + intros (fm & html & Hfm & Hr & ->).
      rewrite (transform_returns noOptions code path fm html EmptyString EmptyString Hfm Hr);
        [|discriminate|discriminate].
      cbn. now rewrite append_nil_r.
Qed.

End TransformMore.

Lemma X10_render_error_witness :
  transform Reference.MarkdownIt_new Reference.MarkdownIt_render Reference.JSON_stringify
    Reference.Frontmatter Reference.parse Reference.toString Reference.root_toString
    Reference.parseDOM Reference.getInnerHTML Reference.getOuterHTML
    Reference.transformSync Reference.compileTemplate
    {| mode := Some [HTML]; markdown := Some (fun _ => Throw "cannot render");
       markdownIt := None |}
    Reference.titled "a.md"
  = Throw "cannot render".
Proof.
  apply (X10_render_error Z Reference.MarkdownIt Reference.MarkdownIt_new
           Reference.MarkdownIt_render Reference.JSON_stringify Reference.Frontmatter
           Reference.parse Reference.toString Reference.root_toString Reference.parseDOM
           Reference.getInnerHTML Reference.getOuterHTML Reference.transformSync
           Reference.compileTemplate _ Reference.titled "a.md"
           {| attributes := JObj [("title", JStr "Hello")]; body := "Hi" |});
    reflexivity.
Defined.

Lemma X11_compiler_errors_witness :
  transform Reference.MarkdownIt_new Reference.MarkdownIt_render Reference.JSON_stringify
    Reference.Frontmatter Reference.parse Reference.toString Reference.root_toString
    Reference.parseDOM Reference.getInnerHTML Reference.getOuterHTML
    (fun _ => Throw "SyntaxError") Reference.compileTemplate
    {| mode := Some [VUE; REACT]; markdown := None; markdownIt := None |}
    Reference.titled "a.md"
  = Throw "SyntaxError" /\
  transform Reference.MarkdownIt_new Reference.MarkdownIt_render Reference.JSON_stringify
    Reference.Frontmatter Reference.parse Reference.toString Reference.root_toString
    Reference.parseDOM Reference.getInnerHTML Reference.getOuterHTML
    Reference.transformSync (fun _ _ => Throw "template error")
    {| mode := Some [VUE; REACT]; markdown := None; markdownIt := None |}
    Reference.titled "a.md"
  = Throw "template error".
Proof.
  split.
  - destruct (X11_compiler_errors Z Reference.MarkdownIt Reference.MarkdownIt_new
                Reference.MarkdownIt_render Reference.JSON_stringify Reference.Frontmatter
                Reference.parse Reference.toString Reference.root_toString
                Reference.parseDOM Reference.getInnerHTML Reference.getOuterHTML
                (fun _ => Throw "SyntaxError") Reference.compileTemplate
                {| mode := Some [VUE; REACT]; markdown := None; markdownIt := None |}
                Reference.titled "a.md"
                {| attributes := JObj [("title", JStr "Hello")]; body := "Hi" |}
                ("<p>Hi</p>" ++ newline) "SyntaxError" eq_refl eq_refl) as [Hb _].
    exact (Hb eq_refl eq_refl).
  - destruct (X11_compiler_errors Z Reference.MarkdownIt Reference.MarkdownIt_new
                Reference.MarkdownIt_render Reference.JSON_stringify Reference.Frontmatter
                Reference.parse Reference.toString Reference.root_toString
                Reference.parseDOM Reference.getInnerHTML Reference.getOuterHTML
                Reference.transformSync (fun _ _ => Throw "template error")
                {| mode := Some [VUE; REACT]; markdown := None; markdownIt := None |}
                Reference.titled "a.md"
                {| attributes := JObj [("title", JStr "Hello")]; body := "Hi" |}
                ("<p>Hi</p>" ++ newline) "template error" eq_refl eq_refl) as [_ Hv].
    apply (Hv eq_refl); [|reflexivity].
    intros _. eexists. reflexivity.
Defined.

Lemma X12_mode_is_a_set_witness :
  Reference.transform
    {| mode := Some [TOC; HTML; TOC]; markdown := None; markdownIt := None |}
    Reference.titled "a.md"
  = Reference.transform
      {| mode := Some [HTML; TOC]; markdown := None; markdownIt := None |}
      Reference.titled "a.md".
Proof.
  unfold Reference.transform. apply X12_mode_is_a_set.
  intros m. simpl. tauto.
Defined.

(** ** The content of an outline entry *)

Section OutlineContent.
Import NodeHtmlParser Outline.
Local Open Scope list_scope.

Variable toString : Node -> string.

(** X14. The [content] of every outline entry is the strings of the
    heading's child nodes joined by commas: for a heading with the children
    [n1], [n2], ... it is the string of [n1], a comma, and the comma-joined
    strings of the rest. *)
Theorem X14_outline_content (root : list Node) (e : Entry) :
  In e (toc toString root) ->
  exists t a c,
    In (HTMLElement t a c) root /\
    In t ["h1"; "h2"; "h3"; "h4"; "h5"; "h6"] /\
    content e = join "," (map toString c) /\
    (forall n1 n2 rest, c = n1 :: n2 :: rest ->
       content e = (toString n1 ++ "," ++ join "," (map toString (n2 :: rest)))%string).
Proof.
  unfold toc. rewrite in_map_iff. intros (n & <- & Hn).
  apply filter_In in Hn as [Hin Hh].
  destruct n as [t a c| |]; try discriminate.
  change (includes headings t = true) in Hh. apply includes_In in Hh.
  exists t, a, c. repeat split; try assumption.
  now intros n1 n2 rest ->.
Qed.

End OutlineContent.

Lemma X14_outline_content_witness :
  exists t a c,
    In (NodeHtmlParser.HTMLElement t a c)
       [NodeHtmlParser.HTMLElement "h2" []
          [NodeHtmlParser.TextNode "Hello ";
           NodeHtmlParser.HTMLElement "em" [] [NodeHtmlParser.TextNode "world"]]] /\
    In t ["h1"; "h2"; "h3"; "h4"; "h5"; "h6"] /\
    "Hello ,<em>world</em>" = join "," (map Reference.toString c).
Proof.
  destruct (X14_outline_content Reference.toString
              [NodeHtmlParser.HTMLElement "h2" []
                 [NodeHtmlParser.TextNode "Hello ";
                  NodeHtmlParser.HTMLElement "em" [] [NodeHtmlParser.TextNode "world"]]]
              {| Outline.level := "2"; Outline.content := "Hello ,<em>world</em>" |})
    as (t & a & c & H1 & H2 & H3 & _).
  - simpl. left. reflexivity.
  - exists t, a, c. auto.
Defined.

(** ** Trees without code blocks *)

Lemma map_unchanged {A : Type} (f : A -> A) (l : list A) :
  (forall i x, nth_error l i = Some x -> f x = x) -> map f l = l.
Proof.
  induction l as [|y l IH]; intros H; [reflexivity|].
  simpl. rewrite (H 0 y eq_refl). f_equal.
  apply IH. intros i x Hx. exact (H (S i) x Hx).
Qed.

Section ReactUnchanged.
Import DomHandler React.

Variable getInnerHTML : Node -> string.
Variable getOuterHTML : list Node -> string.

Local Notation mark := (markCodeAsPre getInnerHTML).

Lemma DomHandler_Node_forall_ind (P : Node -> Prop) :
  (forall t a c, Forall P c -> P (Element t a c)) ->
  (forall d, P (Text d)) ->
  (forall d, P (Comment d)) ->
  (forall n d, P (ProcessingInstruction n d)) ->
  (forall c, Forall P c -> P (CDATA c)) ->
  forall n, P n.
Proof.
  intros He Ht Hc Hp Hd. fix IH 1. intros [t a c|d|d|n d|c].
  - apply He. induction c as [|x c IHc]; constructor; [apply IH | exact IHc].
  - apply Ht.
  - apply Hc.
  - apply Hp.
  - apply Hd. induction c as [|x c IHc]; constructor; [apply IH | exact IHc].
Qed.

Lemma markCodeAsPre_unchanged (n : Node) :
  (forall p t a c, visited p n = Some (Element t a c) ->
     includes ["pre"; "code"] t = false) ->
  mark n = n.
Proof.
  induction n as [t a c IH|d|d|nm d|c IHc] using DomHandler_Node_forall_ind;
    intros H; try reflexivity.
  pose proof (H [] t a c eq_refl) as Ht.
  assert (E : (t =? "code") = false).
  { unfold includes in Ht. simpl in Ht.
    apply orb_false_iff in Ht as [_ Ht]. now apply orb_false_iff in Ht as [Ht _]. }
  rewrite (markCodeAsPre_other getInnerHTML _ _ _ E), (renameClass_frame _ _ Ht).
  f_equal. apply map_unchanged. intros i x Hx.
  rewrite Forall_forall in IH. apply IH; [now apply nth_error_In in Hx|].
  intros p t' a' c' Hv. apply (H (i :: p) t' a' c').
  simpl. now rewrite E, Hx.
Qed.

(** X15. A tree in which the pass meets no [pre] and no [code] element is
    returned as it is, node for node, and the markup handed on is the
    serialization of the tree as parsed, with the markers stripped. *)
Theorem X15_react_no_code_blocks (root : list Node) :
  (forall p t a c, visited_of_root p root = Some (Element t a c) ->
     includes ["pre"; "code"] t = false) ->
  map mark root = root /\
  markup getInnerHTML getOuterHTML root = stripMarkers (getOuterHTML root).
Proof.
  intros H.
  assert (E : map mark root = root).
  { apply map_unchanged. intros i x Hx. apply markCodeAsPre_unchanged.
    intros p t a c Hv. apply (H (i :: p) t a c). simpl. now rewrite Hx. }
  split; [exact E|]. unfold markup. now rewrite E.
Qed.

End ReactUnchanged.

Section VueUnchanged.
Import NodeHtmlParser Vue.

Lemma vue_markCodeAsPre_unchanged (n : Node) :
  (forall p t a c, subnode p n = Some (HTMLElement t a c) -> t <> "code") ->
  markCodeAsPre n = n.
Proof.
  induction n as [t a c IH|raw|raw] using Node_forall_ind; intros H; try reflexivity.
  pose proof (H [] t a c eq_refl) as Ht. apply String.eqb_neq in Ht.
  simpl. rewrite Ht. f_equal. apply map_unchanged. intros i x Hx.
  rewrite Forall_forall in IH. apply IH; [now apply nth_error_In in Hx|].
  intros p t' a' c' Hs. apply (H (i :: p) t' a' c'). simpl. now rewrite Hx.
Qed.

(** X16. A tree with no [code] element anywhere and no [pre] element among
    the root's children goes to the serializer exactly as it was parsed: the
    Vue pass leaves it alone. *)
Theorem X16_vue_no_code_blocks (root : list Node) :
  (forall p t a c, subnode_of_root p root = Some (HTMLElement t a c) ->
     t <> "code" /\ (List.length p = 1 -> t <> "pre")) ->
  adapt root = root.
Proof.
  intros H. unfold adapt. rewrite map_map. apply map_unchanged. intros i x Hx.
  assert (Htop : markTopLevel x = x).
  { destruct x as [t a c|raw|raw]; try reflexivity.
    destruct (H [i] t a c) as [Hc Hp]; [simpl; now rewrite Hx|].
    specialize (Hp eq_refl). apply String.eqb_neq in Hc, Hp.
    unfold markTopLevel, includes. simpl. now rewrite Hc, Hp. }
  rewrite Htop. apply vue_markCodeAsPre_unchanged.
  intros p t a c Hs. apply (H (i :: p) t a c). simpl. now rewrite Hx.
Qed.

End VueUnchanged.

Lemma X15_react_no_code_blocks_witness :
  map (React.markCodeAsPre Reference.getInnerHTML)
    [DomHandler.Element "p" [("class", "lead")] [DomHandler.Text "a"]]
  = [DomHandler.Element "p" [("class", "lead")] [DomHandler.Text "a"]].
Proof.
  apply (X15_react_no_code_blocks Reference.getInnerHTML Reference.getOuterHTML).
  intros p t a c H.
  destruct p as [|i p]; [discriminate|].
  destruct i as [|i]; [|destruct i; discriminate].
  destruct p as [|j p]; simpl in H.
  - injection H as <- _ _. reflexivity.
  - destruct j as [|j]; [|destruct j; discriminate].
    simpl in H. destruct p; discriminate.
Defined.

Lemma X16_vue_no_code_blocks_witness :
  Vue.adapt [NodeHtmlParser.HTMLElement "p" [] [NodeHtmlParser.TextNode "{{ x }}"]]
  = [NodeHtmlParser.HTMLElement "p" [] [NodeHtmlParser.TextNode "{{ x }}"]].
Proof.
  apply X16_vue_no_code_blocks.
  intros p t a c H.
  destruct p as [|i p]; [discriminate|].
  destruct i as [|i]; [|destruct i; discriminate].
  destruct p as [|j p]; simpl in H.
  - injection H as <- _ _. split; [discriminate | intros _; discriminate].
  - destruct j as [|j]; [|destruct j; discriminate].
    simpl in H. destruct p as [|k p]; [discriminate | destruct k; discriminate].
Defined.
